(** * Code-Review-Agent: the tool functions of [src/tools.ts]

  A shallow embedding of the three tools ([getFileChangesInDirectory],
  [generateCommitMessage], [writeReviewToMarkdown]) and the properties
  the specification states about them.

  Layout: the JavaScript primitives the tools call ([Js]), the effect
  monad for [async] functions that may reject ([Async]), the external
  collaborators ([World]: simple-git, fs/promises, the clock), the
  tools themselves ([Tools]) and then the theorems. *)

From Stdlib Require Import List String Ascii Bool Arith NArith ZArith Lia.
From Stdlib Require Import DecimalString Permutation.
Import ListNotations.
Open Scope string_scope.

(* ================================================================== *)
(** ** JavaScript string and array primitives *)
(* ================================================================== *)

(** A JavaScript string is a sequence of code units; [string] stands for
  it, one character per code unit.  Method receivers come first:
  [includes s sub] is [s.includes(sub)]. *)
Module Js.

(** The line feed that a line break inside a template literal denotes. *)
Definition nl : string := String (ascii_of_nat 10) "".

(** Truthiness of a string value: only the empty string is falsy. *)
Definition truthy (s : string) : bool :=
  match s with
  | EmptyString => false
  | String _ _ => true
  end.

(** [s.startsWith(p)] *)
Fixpoint startsWith (s p : string) {struct p} : bool :=
  match p with
  | EmptyString => true
  | String a p' =>
      match s with
      | EmptyString => false
      | String b s' => Ascii.eqb a b && startsWith s' p'
      end
  end.

(** [s.includes(sub)]: [sub] starts at some position of [s]. *)
Fixpoint includes (s sub : string) : bool :=
  startsWith s sub ||
  match s with
  | EmptyString => false
  | String _ s' => includes s' sub
  end.

(** [s.endsWith(suf)]: some tail of [s] is [suf]. *)
Fixpoint endsWith (s suf : string) : bool :=
  String.eqb s suf ||
  match s with
  | EmptyString => false
  | String _ s' => endsWith s' suf
  end.

(** [s.split(sep)] for a one-character separator.  The result is never
    empty: a string without the separator splits into itself. *)
Fixpoint split (s : string) (sep : ascii) : list string :=
  match s with
  | EmptyString => [EmptyString]
  | String c s' =>
      if Ascii.eqb c sep then EmptyString :: split s' sep
      else match split s' sep with
           | seg :: segs => String c seg :: segs
           | [] => [String c EmptyString]
           end
  end.

(** [xs.includes(x)] on an array of strings: strict equality with some
    element. *)
Definition array_includes (xs : list string) (x : string) : bool :=
  existsb (fun y => String.eqb y x) xs.

(** [xs.some(p)] *)
Definition some {A} (xs : list A) (p : A -> bool) : bool := existsb p xs.

(** [`${n}`] for a non-negative integer count: its decimal digits.  (A
  JavaScript number is written so as long as it is an integer below
  10^21; the counts of a diff summary are far below.) *)
Definition number_toString (n : N) : string :=
  NilZero.string_of_uint (N.to_uint n).

(** Propositional readings of the substring tests. *)
Definition Contains (s sub : string) : Prop :=
  exists pre post, s = pre ++ sub ++ post.

Definition EndsWith (s suf : string) : Prop :=
  exists pre, s = pre ++ suf.

End Js.

(** [Date.prototype.toISOString] on a time value (milliseconds since
  1970-01-01T00:00:00Z), as ECMAScript defines it: the proleptic Gregorian
  date in UTC, [YYYY-MM-DDTHH:mm:ss.sssZ], with the year written as a sign
  and six digits when it is outside 0..9999. *)
Module Date.

Fixpoint zeros (n : nat) : string :=
  match n with
  | O => EmptyString
  | S n' => String "0" (zeros n')
  end.

(** Decimal digits of [n], padded with zeros on the left to [width]. *)
Definition padStart (width : nat) (n : Z) : string :=
  let digits := Js.number_toString (Z.to_N n) in
  zeros (width - String.length digits) ++ digits.

(** Year, month and day of the day that is [days] days after 1970-01-01. *)
Definition civil (days : Z) : Z * Z * Z :=
  let z := (days + 719468)%Z in
  let era := (z / 146097)%Z in
  let doe := (z - era * 146097)%Z in
  let yoe := ((doe - doe / 1460 + doe / 36524 - doe / 146096) / 365)%Z in
  let doy := (doe - (365 * yoe + yoe / 4 - yoe / 100))%Z in
  let mp := ((5 * doy + 2) / 153)%Z in
  let d := (doy - (153 * mp + 2) / 5 + 1)%Z in
  let m := (if mp <? 10 then mp + 3 else mp - 9)%Z in
  let y := (yoe + era * 400 + (if m <=? 2 then 1 else 0))%Z in
  (y, m, d).

Definition yearString (y : Z) : string :=
  if ((0 <=? y) && (y <=? 9999))%Z then padStart 4 y
  else if (y <? 0)%Z then "-" ++ padStart 6 (- y)
  else "+" ++ padStart 6 y.

Definition toISOString (tv : Z) : string :=
  let days := (tv / 86400000)%Z in
  let ms := (tv mod 86400000)%Z in
  let '(y, m, d) := civil days in
  yearString y ++ "-" ++ padStart 2 m ++ "-" ++ padStart 2 d
  ++ "T" ++ padStart 2 (ms / 3600000)
  ++ ":" ++ padStart 2 (ms / 60000 mod 60)
  ++ ":" ++ padStart 2 (ms / 1000 mod 60)
  ++ "." ++ padStart 3 (ms mod 1000) ++ "Z".

End Date.

(* ================================================================== *)
(** ** Asynchronous computations that may reject *)
(* ================================================================== *)

(** An [async] function either fulfils with a value or rejects with the
  value that was thrown.  Every awaited call on an external collaborator
  is recorded, in order, so that a theorem can say which calls a tool
  made and with which arguments. *)
Module Async.

(** What a [catch] clause can tell about a thrown value: an [Error]
  carries a message, anything else does not. *)
Inductive Thrown : Type :=
| ErrorObject (message : string)
| OtherValue.

Inductive Outcome (A : Type) : Type :=
| Return (a : A)
| Throw (e : Thrown).

Arguments Return {A} a.
Arguments Throw {A} e.

(** The calls that leave the process. *)
Inductive Event : Type :=
| GitOpen (rootDir : string)
| GitDiffSummary
| GitDiff (args : list string)
| FsMkdir (dir : string) (recursive : bool)
| FsWriteFile (path content : string).

Definition M (A : Type) : Type := list Event -> Outcome A * list Event.

Definition ret {A} (a : A) : M A := fun log => (Return a, log).

Definition bind {A B} (m : M A) (k : A -> M B) : M B :=
  fun log =>
    match m log with
    | (Return a, log') => k a log'
    | (Throw e, log') => (Throw e, log')
    end.

(** [await] of an external call: the call is logged and its outcome is
  the outcome of the computation. *)
Definition await {A} (ev : Event) (o : Outcome A) : M A :=
  fun log => (o, (log ++ [ev])%list).

(** [try { body } catch (error) { handler }] *)
Definition try_catch {A} (body : M A) (handler : Thrown -> M A) : M A :=
  fun log =>
    match body log with
    | (Return a, log') => (Return a, log')
    | (Throw e, log') => handler e log'
    end.

(** A whole invocation, from an empty log. *)
Definition run {A} (m : M A) : Outcome A * list Event := m [].

Definition outcome {A} (m : M A) : Outcome A := fst (run m).

Definition trace {A} (m : M A) : list Event := snd (run m).

End Async.

Notation "x <- m ;; k" := (Async.bind m (fun x => k))
  (at level 61, m at next level, right associativity).

(* ================================================================== *)
(** ** External collaborators *)
(* ================================================================== *)

(** The part of simple-git's [DiffResult] that the tools read. *)
Module DiffResultFile.
Record t : Type := { file : string; insertions : N; deletions : N }.
End DiffResultFile.

Module DiffResult.
Record t : Type :=
  { files : list DiffResultFile.t; insertions : N; deletions : N }.
End DiffResult.

(** A simple-git handle on one working copy: what [git.diffSummary()]
  and [git.diff(args)] answer for it.  The working copy is taken not to
  change while one tool call runs. *)
Module SimpleGit.
Record t : Type :=
  { diffSummary : Async.Outcome DiffResult.t;
    diff : list string -> Async.Outcome string }.
End SimpleGit.

(** Everything outside the module: simple-git, [fs/promises], [path] and
  the clock. *)
Module World.
Record t : Type :=
  { simpleGit : string -> Async.Outcome SimpleGit.t;
    dirname : string -> string;
    mkdir : string -> Async.Outcome unit;
    writeFile : string -> string -> Async.Outcome unit;
    (** time value of [new Date()], in milliseconds since the epoch *)
    now : Z }.
End World.

(* ================================================================== *)
(** ** The tools *)
(* ================================================================== *)

Module Tools.
Import Async.

(** [const excludeFiles = ["dist", "bun.lock"]] *)
Definition excludeFiles : list string := ["dist"; "bun.lock"].

(** *** getFileChangesInDirectory *)

Module FileDiff.
Record t : Type := { file : string; diff : string }.
End FileDiff.

(** The [for ... of summary.files] loop; [diffs] is the array built so
  far. *)
Fixpoint collectDiffs (git : SimpleGit.t) (fs : list DiffResultFile.t)
    (diffs : list FileDiff.t) : M (list FileDiff.t) :=
  match fs with
  | [] => ret diffs
  | file :: rest =>
      if Js.array_includes excludeFiles (DiffResultFile.file file)
      then collectDiffs git rest diffs
      else
        let args := ["--"; DiffResultFile.file file] in
        diff <- await (GitDiff args) (SimpleGit.diff git args) ;;
        collectDiffs git rest
          (diffs ++ [ {| FileDiff.file := DiffResultFile.file file;
                         FileDiff.diff := diff |} ])%list
  end.

Definition getFileChangesInDirectory (w : World.t) (rootDir : string)
    : M (list FileDiff.t) :=
  git <- await (GitOpen rootDir) (World.simpleGit w rootDir) ;;
  summary <- await GitDiffSummary (SimpleGit.diffSummary git) ;;
  collectDiffs git (DiffResult.files summary) [].

(** *** generateCommitMessage *)

(** [z.enum(["feat", "fix", "docs", "style", "refactor", "perf", "test",
  "chore"])] *)
Inductive CommitType : Type :=
| Feat | Fix | Docs | Style | Refactor | Perf | Test | Chore.

(** The string each member of the enumeration is. *)
Definition type_name (t : CommitType) : string :=
  match t with
  | Feat => "feat"
  | Fix => "fix"
  | Docs => "docs"
  | Style => "style"
  | Refactor => "refactor"
  | Perf => "perf"
  | Test => "test"
  | Chore => "chore"
  end.

Module Stats.
Record t : Type :=
  { filesChanged : nat; insertions : N; deletions : N; type : CommitType }.
End Stats.

Module CommitMessage.
Record t : Type :=
  { commitMessage : string; stats : Stats.t; affectedFiles : list string }.
End CommitMessage.

(** The function returns either a plain string or the object above. *)
Inductive CommitOutput : Type :=
| Text (s : string)
| Object (r : CommitMessage.t).

(** Lines 54-66: the type chosen from the changed paths and the totals. *)
Definition autoDetect (summary : DiffResult.t) : CommitType :=
  let changedFiles := map DiffResultFile.file (DiffResult.files summary) in
  if Js.some changedFiles
       (fun f => Js.includes f "test" || Js.includes f "spec")
  then Test
  else if Js.some changedFiles
            (fun f => Js.includes f "README" || Js.endsWith f ".md")
  then Docs
  else if Js.some changedFiles (fun f => Js.includes f "package.json")
  then Chore
  else if (DiffResult.deletions summary <? DiffResult.insertions summary)%N
  then Feat
  else Fix.

(** Lines 52-67: [let detectedType = type; if (!detectedType) ...].  An
  absent [type] is [undefined], which is falsy; a present one is falsy
  only if it is the empty string. *)
Definition detectType (type : option CommitType) (summary : DiffResult.t)
    : CommitType :=
  match type with
  | Some t => if Js.truthy (type_name t) then t else autoDetect summary
  | None => autoDetect summary
  end.

(** Line 76.  [None] is [undefined], which indexing an array can give;
  the condition is [filesChanged === 1 && summary.files[0]]. *)
Definition scopeOf (summary : DiffResult.t) : option string :=
  let filesChanged := List.length (DiffResult.files summary) in
  if Nat.eqb filesChanged 1
  then match nth_error (DiffResult.files summary) 0 with
       | Some file0 => nth_error (Js.split (DiffResultFile.file file0) "/") 0
       | None => Some ""
       end
  else Some "".

(** Line 77. *)
Definition scopeTextOf (summary : DiffResult.t) : string :=
  match scopeOf summary, nth_error (DiffResult.files summary) 0 with
  | Some scope, Some file0 =>
      if Js.truthy scope && negb (String.eqb scope (DiffResultFile.file file0))
      then "(" ++ scope ++ ")"
      else ""
  | _, _ => ""
  end.

(** Lines 79-94, on the string that [detectedType] is. *)
Definition descriptionOf (detectedType : string) : string :=
  if String.eqb detectedType "feat" then "add new functionality"
  else if String.eqb detectedType "fix" then "resolve issues"
  else if String.eqb detectedType "docs" then "update documentation"
  else if String.eqb detectedType "refactor" then "improve code structure"
  else if String.eqb detectedType "test" then "add/update tests"
  else if String.eqb detectedType "chore" then "update dependencies/config"
  else "make changes".

(** Lines 71-109: the message, the statistics and the list of paths,
  once the type is settled. *)
Definition compose (summary : DiffResult.t) (detectedType : CommitType)
    : CommitMessage.t :=
  let filesChanged := List.length (DiffResult.files summary) in
  let insertions := DiffResult.insertions summary in
  let deletions := DiffResult.deletions summary in
  let scopeText := scopeTextOf summary in
  let description := descriptionOf (type_name detectedType) in
  let commitMessage :=
    type_name detectedType ++ scopeText ++ ": " ++ description
    ++ Js.nl ++ Js.nl
    ++ Js.number_toString (N.of_nat filesChanged) ++ " file(s) changed, "
    ++ Js.number_toString insertions ++ " insertion(s), "
    ++ Js.number_toString deletions ++ " deletion(s)" in
  {| CommitMessage.commitMessage := commitMessage;
     CommitMessage.stats :=
       {| Stats.filesChanged := filesChanged;
          Stats.insertions := insertions;
          Stats.deletions := deletions;
          Stats.type := detectedType |};
     CommitMessage.affectedFiles :=
       map DiffResultFile.file (DiffResult.files summary) |}.

(** Lines 43-110.  The full diff of line 70 is fetched after the type is
  settled and before the message is composed; its text is not used. *)
Definition generateCommitMessage (w : World.t) (rootDir : string)
    (type : option CommitType) : M CommitOutput :=
  git <- await (GitOpen rootDir) (World.simpleGit w rootDir) ;;
  summary <- await GitDiffSummary (SimpleGit.diffSummary git) ;;
  if Nat.eqb (List.length (DiffResult.files summary)) 0
  then ret (Text "No changes detected in the repository")
  else
    let detectedType := detectType type summary in
    diffText <- await (GitDiff []) (SimpleGit.diff git []) ;;
    ret (Object (compose summary detectedType)).

(** *** writeReviewToMarkdown *)

(** What the tool is called with, before [writeMarkdownSchema] has
  parsed it. *)
Module WriteMarkdownArgs.
Record t : Type :=
  { filePath : string;
    reviewContent : string;
    title : option string;
    includeTimestamp : option bool }.
End WriteMarkdownArgs.

(** [z.infer<typeof writeMarkdownSchema>] *)
Module WriteMarkdownInput.
Record t : Type :=
  { filePath : string;
    reviewContent : string;
    title : option string;
    includeTimestamp : bool }.
End WriteMarkdownInput.

(** [z.string().min(1)] *)
Definition min1 (s : string) : bool := Nat.leb 1 (String.length s).

(** Lines 119-124: both strings must be non-empty, the title is optional
  and [includeTimestamp] defaults to [true]. *)
Definition writeMarkdownSchema (a : WriteMarkdownArgs.t)
    : option WriteMarkdownInput.t :=
  if min1 (WriteMarkdownArgs.filePath a)
     && min1 (WriteMarkdownArgs.reviewContent a)
  then Some {| WriteMarkdownInput.filePath := WriteMarkdownArgs.filePath a;
               WriteMarkdownInput.reviewContent :=
                 WriteMarkdownArgs.reviewContent a;
               WriteMarkdownInput.title := WriteMarkdownArgs.title a;
               WriteMarkdownInput.includeTimestamp :=
                 match WriteMarkdownArgs.includeTimestamp a with
                 | Some b => b
                 | None => true
                 end |}
  else None.

(** The two objects the function returns: [{ success: true, filePath,
  message, size }] and [{ success: false, error, filePath }]. *)
Inductive WriteResult : Type :=
| Written (filePath message : string) (size : nat)
| Failed (error filePath : string).

Definition success (r : WriteResult) : bool :=
  match r with
  | Written _ _ _ => true
  | Failed _ _ => false
  end.

(** Lines 134-150: the document, built by appending to
  [markdownContent].  [now] is the time value of [new Date()]. *)
Definition markdownContentOf (now : Z) (i : WriteMarkdownInput.t) : string :=
  let reviewContent := WriteMarkdownInput.reviewContent i in
  let timestamp :=
    if WriteMarkdownInput.includeTimestamp i
    then Some (Date.toISOString now)
    else None in
  let reviewTitle :=
    match WriteMarkdownInput.title i with
    | Some t => if Js.truthy t then t else "Code Review"
    | None => "Code Review"
    end in
  let markdownContent := "# " ++ reviewTitle ++ Js.nl ++ Js.nl in
  let markdownContent :=
    match timestamp with
    | Some ts =>
        if Js.truthy ts
        then markdownContent ++ ("**Generated:** " ++ ts ++ Js.nl ++ Js.nl)
        else markdownContent
    | None => markdownContent
    end in
  let markdownContent := markdownContent ++ ("---" ++ Js.nl ++ Js.nl) in
  let markdownContent := markdownContent ++ reviewContent in
  if negb (Js.includes reviewContent "##")
     && negb (Js.includes reviewContent "###")
  then (markdownContent
        ++ (Js.nl ++ Js.nl ++ "## Summary" ++ Js.nl ++ Js.nl))
       ++ ("This review was generated automatically. Please review the suggestions and apply them as appropriate."
           ++ Js.nl)
  else markdownContent.

(** Lines 128-167: everything happens inside [try]; the [catch] clause
  turns whatever was thrown into the failure object. *)
Definition writeReviewToMarkdown (w : World.t) (i : WriteMarkdownInput.t)
    : M WriteResult :=
  let filePath := WriteMarkdownInput.filePath i in
  try_catch
    (let dir := World.dirname w filePath in
     _ <- await (FsMkdir dir true) (World.mkdir w dir) ;;
     let markdownContent := markdownContentOf (World.now w) i in
     _ <- await (FsWriteFile filePath markdownContent)
            (World.writeFile w filePath markdownContent) ;;
     ret (Written filePath
            ("Code review successfully written to " ++ filePath)
            (String.length markdownContent)))
    (fun error =>
       ret (Failed
              match error with
              | ErrorObject message => message
              | OtherValue => "Unknown error occurred"
              end
              filePath)).

End Tools.

(* ================================================================== *)
(** ** Sample worlds, for concrete runs *)
(* ================================================================== *)

Module Sample.
Import Async.

(** The part of a path before its last separator, if it has one. *)
Fixpoint beforeLastSlash (p : string) : option string :=
  match p with
  | EmptyString => None
  | String c p' =>
      match beforeLastSlash p' with
      | Some d => Some (String c d)
      | None => if Ascii.eqb c "/" then Some EmptyString else None
      end
  end.

(** [path.dirname] on paths without trailing or doubled separators. *)
Definition dirname (p : string) : string :=
  match beforeLastSlash p with
  | Some EmptyString => "/"
  | Some d => d
  | None => "."
  end.

Definition changed (path : string) (ins del : N) : DiffResultFile.t :=
  {| DiffResultFile.file := path;
     DiffResultFile.insertions := ins;
     DiffResultFile.deletions := del |}.

Definition summaryOf (fs : list DiffResultFile.t) : DiffResult.t :=
  {| DiffResult.files := fs;
     DiffResult.insertions :=
       fold_right (fun f n => (DiffResultFile.insertions f + n)%N) 0%N fs;
     DiffResult.deletions :=
       fold_right (fun f n => (DiffResultFile.deletions f + n)%N) 0%N fs |}.

(** Pending changes used in the concrete runs. *)
Definition oneTest : list DiffResultFile.t := [changed "src/tools.test.ts" 1 9].

Definition manifest : list DiffResultFile.t := [changed "package.json" 3 1].

Definition oneSource : list DiffResultFile.t := [changed "src/tools.ts" 12 4].

Definition lockfile : list DiffResultFile.t := [changed "bun.lock" 5 0].

Definition rooted : list DiffResultFile.t := [changed "/x" 0 1].

Definition mixed : list DiffResultFile.t :=
  [changed "src/a.ts" 2 0; changed "dist" 7 7;
   changed "dist/app.js" 1 1; changed "bun.lock" 5 0].

(** A working copy whose pending changes are [fs]; the diff of a path is
  [body] applied to the arguments of the call. *)
Definition git (fs : list DiffResultFile.t) (body : list string -> string)
    : SimpleGit.t :=
  {| SimpleGit.diffSummary := Return (summaryOf fs);
     SimpleGit.diff := fun args => Return (body args) |}.

(** A world where every call succeeds. *)
Definition world (fs : list DiffResultFile.t) (body : list string -> string)
    : World.t :=
  {| World.simpleGit := fun _ => Return (git fs body);
     World.dirname := dirname;
     World.mkdir := fun _ => Return tt;
     World.writeFile := fun _ _ => Return tt;
     World.now := 1758326400000%Z |}.

(** A world whose disk is full: directories exist, writes fail. *)
Definition diskFull : World.t :=
  {| World.simpleGit := fun _ => Throw (ErrorObject "not a git repository");
     World.dirname := dirname;
     World.mkdir := fun _ => Return tt;
     World.writeFile := fun _ _ => Throw (ErrorObject "ENOSPC");
     World.now := 0%Z |}.

Definition diffBody (args : list string) : string :=
  String.concat " " ("diff" :: args).

(** Reviews to write. *)
Definition review : Tools.WriteMarkdownInput.t :=
  {| Tools.WriteMarkdownInput.filePath := "reviews/r.md";
     Tools.WriteMarkdownInput.reviewContent := "Looks fine.";
     Tools.WriteMarkdownInput.title := None;
     Tools.WriteMarkdownInput.includeTimestamp := true |}.

Definition untitled : Tools.WriteMarkdownInput.t :=
  {| Tools.WriteMarkdownInput.filePath := "r.md";
     Tools.WriteMarkdownInput.reviewContent := "## Notes";
     Tools.WriteMarkdownInput.title := Some "";
     Tools.WriteMarkdownInput.includeTimestamp := false |}.

Definition headed : Tools.WriteMarkdownInput.t :=
  {| Tools.WriteMarkdownInput.filePath := "r.md";
     Tools.WriteMarkdownInput.reviewContent := "# Findings";
     Tools.WriteMarkdownInput.title := Some "Review";
     Tools.WriteMarkdownInput.includeTimestamp := false |}.

End Sample.

(* ================================================================== *)
(** ** Vocabulary of the statements *)
(* ================================================================== *)

Module Props.
Import Tools.

(** The changed paths of a summary, in the summary's order. *)
Definition paths (summary : DiffResult.t) : list string :=
  map DiffResultFile.file (DiffResult.files summary).

(** Some changed path satisfies [P]. *)
Definition SomePath (summary : DiffResult.t) (P : string -> Prop) : Prop :=
  exists p, In p (paths summary) /\ P p.

(** The description table as the specification words it. *)
Definition descriptionTable (t : CommitType) : string :=
  match t with
  | Feat => "add new functionality"
  | Fix => "resolve issues"
  | Docs => "update documentation"
  | Refactor => "improve code structure"
  | Test => "add/update tests"
  | Chore => "update dependencies/config"
  | Style | Perf => "make changes"
  end.

(** The body line [<N> file(s) changed, <I> insertion(s), <D>
  deletion(s)], after the blank line. *)
Definition bodyLine (n : nat) (i d : N) : string :=
  Js.nl ++ Js.nl
  ++ Js.number_toString (N.of_nat n) ++ " file(s) changed, "
  ++ Js.number_toString i ++ " insertion(s), "
  ++ Js.number_toString d ++ " deletion(s)".

(** A path is excluded when it is one of the two names, character for
  character. *)
Definition Excluded (p : string) : Prop := p = "dist" \/ p = "bun.lock".

Definition excludedb (p : string) : bool :=
  String.eqb p "dist" || String.eqb p "bun.lock".

(** The paths that survive the exclusion test, in order. *)
Definition retained (fs : list DiffResultFile.t) : list string :=
  filter (fun p => negb (excludedb p)) (map DiffResultFile.file fs).

Definition entry (diffOf : string -> string) (p : string) : FileDiff.t :=
  {| FileDiff.file := p; FileDiff.diff := diffOf p |}.

(** The message of a thrown value, as the [catch] clause reads it. *)
Definition messageOf (e : Async.Thrown) : string :=
  match e with
  | Async.ErrorObject message => message
  | Async.OtherValue => "Unknown error occurred"
  end.

(** The section that is appended to a review without headings. *)
Definition summarySection : string :=
  Js.nl ++ Js.nl ++ "## Summary" ++ Js.nl ++ Js.nl
  ++ "This review was generated automatically. Please review the suggestions and apply them as appropriate."
  ++ Js.nl.

End Props.

(* ================================================================== *)
(** ** The input schema of generateCommitMessage *)
(* ================================================================== *)

Module Inputs.
Import Tools.

(** What the tool is called with, before [commitMessageSchema] has parsed
  it. *)
Module CommitMessageArgs.
Record t : Type := { rootDir : string; type : option string }.
End CommitMessageArgs.

(** [z.infer<typeof commitMessageSchema>] *)
Module CommitMessageInput.
Record t : Type := { rootDir : string; type : option CommitType }.
End CommitMessageInput.

(** [z.enum(["feat", "fix", "docs", "style", "refactor", "perf", "test",
  "chore"])]: the member a string is, if it is one of the eight. *)
Definition parseCommitType (s : string) : option CommitType :=
  if String.eqb s "feat" then Some Feat
  else if String.eqb s "fix" then Some Fix
  else if String.eqb s "docs" then Some Docs
  else if String.eqb s "style" then Some Style
  else if String.eqb s "refactor" then Some Refactor
  else if String.eqb s "perf" then Some Perf
  else if String.eqb s "test" then Some Test
  else if String.eqb s "chore" then Some Chore
  else None.

(** Lines 36-39: [rootDir] must be non-empty; [type] may be left out and
  must otherwise be a member of the enumeration. *)
Definition commitMessageSchema (a : CommitMessageArgs.t)
    : option CommitMessageInput.t :=
  if min1 (CommitMessageArgs.rootDir a)
  then match CommitMessageArgs.type a with
       | None =>
           Some {| CommitMessageInput.rootDir := CommitMessageArgs.rootDir a;
                   CommitMessageInput.type := None |}
       | Some s =>
           match parseCommitType s with
           | Some t =>
               Some {| CommitMessageInput.rootDir :=
                         CommitMessageArgs.rootDir a;
                       CommitMessageInput.type := Some t |}
           | None => None
           end
       end
  else None.

End Inputs.

(* ================================================================== *)
(** ** Further vocabulary and sample worlds *)
(* ================================================================== *)

Module Order.
Import Tools.

(** The place of a type in the order of the detection rules: the path
  rules first, the rule on the totals last. *)
Definition priority (t : CommitType) : nat :=
  match t with
  | Test => 0
  | Docs => 1
  | Chore => 2
  | _ => 3
  end.

(** The test of line 21, read on a path. *)
Definition keptb (p : string) : bool :=
  negb (String.eqb p "dist" || String.eqb p "bun.lock").

End Order.

Module Cases.
Import Async.

Definition onlyExcluded : list DiffResultFile.t :=
  [Sample.changed "dist" 7 7; Sample.changed "bun.lock" 5 0].

Definition threeSources : list DiffResultFile.t :=
  [Sample.changed "a.ts" 1 0; Sample.changed "dist" 7 7;
   Sample.changed "b.ts" 2 2; Sample.changed "c.ts" 0 3].

(** A working copy where the diff of "b.ts" cannot be read. *)
Definition flakyGit : SimpleGit.t :=
  {| SimpleGit.diffSummary := Return (Sample.summaryOf threeSources);
     SimpleGit.diff :=
       fun args =>
         if list_eq_dec string_dec args ["--"; "b.ts"]
         then Throw (ErrorObject "fatal: unable to read b.ts")
         else Return (Sample.diffBody args) |}.

Definition flaky : World.t :=
  {| World.simpleGit := fun _ => Return flakyGit;
     World.dirname := Sample.dirname;
     World.mkdir := fun _ => Return tt;
     World.writeFile := fun _ _ => Return tt;
     World.now := 0%Z |}.

(** A world where no directory can be made. *)
Definition readOnly : World.t :=
  {| World.simpleGit := fun _ => Return (Sample.git [] Sample.diffBody);
     World.dirname := Sample.dirname;
     World.mkdir := fun _ => Throw OtherValue;
     World.writeFile := fun _ _ => Return tt;
     World.now := 0%Z |}.

(** The same paths as [Sample.mixed] in another order, with other
  per-file counts and the same totals. *)
Definition mixedShuffled : list DiffResultFile.t :=
  [Sample.changed "bun.lock" 0 0; Sample.changed "dist/app.js" 15 0;
   Sample.changed "src/a.ts" 0 8; Sample.changed "dist" 0 0].

Definition sourceAndTest : list DiffResultFile.t :=
  [Sample.changed "src/tools.ts" 12 4; Sample.changed "src/tools.test.ts" 1 9].

(** What [getFileChangesInDirectory] lists for [Sample.mixed]. *)
Definition mixedEntries : list Tools.FileDiff.t :=
  [ {| Tools.FileDiff.file := "src/a.ts";
       Tools.FileDiff.diff := "diff -- src/a.ts" |};
    {| Tools.FileDiff.file := "dist/app.js";
       Tools.FileDiff.diff := "diff -- dist/app.js" |} ].

(** A review whose content is the document written for [Sample.headed]. *)
Definition rewrapped : Tools.WriteMarkdownInput.t :=
  {| Tools.WriteMarkdownInput.filePath := "again.md";
     Tools.WriteMarkdownInput.reviewContent :=
       Tools.markdownContentOf 1758326400000%Z Sample.headed;
     Tools.WriteMarkdownInput.title := None;
     Tools.WriteMarkdownInput.includeTimestamp := true |}.

Definition refactorArgs : Inputs.CommitMessageArgs.t :=
  {| Inputs.CommitMessageArgs.rootDir := "repo";
     Inputs.CommitMessageArgs.type := Some "refactor" |}.

End Cases.

(* ================================================================== *)
(** ** Facts about the primitives *)
(* ================================================================== *)

Section JsFacts.
Import Js.

Lemma append_nil_r (s : string) : s ++ "" = s.
Proof. induction s as [|c s IH]; simpl; [reflexivity | now rewrite IH]. Qed.

Lemma append_assoc (a b c : string) : (a ++ b) ++ c = a ++ (b ++ c).
Proof. induction a as [|x a IH]; simpl; [reflexivity | now rewrite IH]. Qed.

Lemma startsWith_iff (s p : string) :
  startsWith s p = true <-> exists post, s = p ++ post.
Proof.
  revert s; induction p as [|a p IH]; intros s; simpl.
  - split; [intros _; now exists s | reflexivity].
  - destruct s as [|b s].
    + split; [discriminate | intros [post H]; discriminate].
    + rewrite andb_true_iff, Ascii.eqb_eq, IH. split.
      * intros [-> [post ->]]. now exists post.
      * intros [post H]. injection H as -> ->. split; [reflexivity | now exists post].
Qed.

Lemma includes_iff (s sub : string) :
  includes s sub = true <-> Contains s sub.
Proof.
  unfold Contains. induction s as [|c s IH]; simpl.
  - rewrite orb_false_r, startsWith_iff. split.
    + intros [post H]. now exists "", post.
    + intros [pre [post H]]. destruct pre; [now exists post | discriminate].
  - rewrite orb_true_iff, startsWith_iff, IH. split.
    + intros [[post H] | [pre [post H]]].
      * now exists "", post.
      * exists (String c pre), post. simpl. now rewrite H.
    + intros [pre [post H]]. destruct pre as [|x pre]; simpl in H.
      * left. now exists post.
      * right. injection H as _ H. now exists pre, post.
Qed.

Lemma includes_false_iff (s sub : string) :
  includes s sub = false <-> ~ Contains s sub.
Proof.
  rewrite <- includes_iff. destruct (includes s sub); split; congruence.
Qed.

Lemma endsWith_iff (s suf : string) :
  endsWith s suf = true <-> EndsWith s suf.
Proof.
  unfold EndsWith. induction s as [|c s IH]; cbn [endsWith].
  - rewrite orb_false_r, String.eqb_eq. split.
    + intros <-. now exists "".
    + intros [pre H]. destruct pre; [assumption | discriminate].
  - rewrite orb_true_iff, String.eqb_eq, IH. split.
    + intros [<- | [pre ->]]; [now exists "" | now exists (String c pre)].
    + intros [pre H]. destruct pre as [|x pre]; simpl in H.
      * now left.
      * right. injection H as _ H. now exists pre.
Qed.

Lemma endsWith_false_iff (s suf : string) :
  endsWith s suf = false <-> ~ EndsWith s suf.
Proof.
  rewrite <- endsWith_iff. destruct (endsWith s suf); split; congruence.
Qed.

Lemma truthy_iff (s : string) : truthy s = true <-> s <> "".
Proof. destruct s; simpl; split; congruence. Qed.

Lemma split_nonempty (s : string) (sep : ascii) : split s sep <> [].
Proof.
  induction s as [|c s IH]; simpl; [discriminate|].
  destruct (Ascii.eqb c sep); [discriminate|].
  destruct (split s sep); discriminate.
Qed.

(** A character occurs in a string. *)
Lemma includes_char_cons (c x : ascii) (s : string) :
  includes (String c s) (String x "") = Ascii.eqb x c || includes s (String x "").
Proof.
  simpl. destruct (Ascii.eqb x c); simpl; [reflexivity|].
  reflexivity.
Qed.

(** A string without the separator is its own single segment. *)
Lemma split_no_sep (s : string) (sep : ascii) :
  includes s (String sep "") = false -> split s sep = [s].
Proof.
  induction s as [|c s IH]; [reflexivity|].
  rewrite includes_char_cons, orb_false_iff. intros [Hc Hs].
  simpl. rewrite Ascii.eqb_sym, Hc, (IH Hs). reflexivity.
Qed.

(** The first segment of [seg ++ sep ++ rest] is [seg] when [seg] holds
    no separator. *)
Lemma split_first_segment (seg rest : string) (sep : ascii) :
  includes seg (String sep "") = false ->
  exists segs, split (seg ++ String sep rest) sep = seg :: segs.
Proof.
  induction seg as [|c seg IH]; intros H.
  - simpl. rewrite Ascii.eqb_refl. eauto.
  - rewrite includes_char_cons, orb_false_iff in H. destruct H as [Hc Hs].
    destruct (IH Hs) as [segs E].
    simpl. rewrite Ascii.eqb_sym, Hc, E. eauto.
Qed.

(** A string that contains the separator splits at its first
    occurrence. *)
Lemma includes_char_split (s : string) (sep : ascii) :
  includes s (String sep "") = true ->
  exists seg rest,
    s = seg ++ String sep rest /\ includes seg (String sep "") = false.
Proof.
  induction s as [|c s IH]; [discriminate|].
  rewrite includes_char_cons. destruct (Ascii.eqb sep c) eqn:E; simpl.
  - intros _. apply Ascii.eqb_eq in E. subst c. now exists "", s.
  - intros H. destruct (IH H) as [seg [rest [-> Hseg]]].
    exists (String c seg), rest. split; [reflexivity|].
    rewrite includes_char_cons, E. exact Hseg.
Qed.

Lemma array_includes_iff (xs : list string) (x : string) :
  array_includes xs x = true <-> In x xs.
Proof.
  unfold array_includes. rewrite existsb_exists. split.
  - intros [y [Hy E]]. apply String.eqb_eq in E. now subst.
  - intros H. exists x. split; [assumption | apply String.eqb_refl].
Qed.

End JsFacts.

(** The next awaited call has the outcome that [H] states. *)
Ltac awaited H :=
  unfold Async.bind at 1, Async.await at 1; rewrite H; cbv beta iota zeta.

(* ================================================================== *)
(** ** generateCommitMessage *)
(* ================================================================== *)

Section CommitMessageFacts.
Import Async Tools Props.

Lemma some_map_iff {A} (f : A -> string) (xs : list A) (p : string -> bool) :
  Js.some (map f xs) p = true <-> exists x, In x xs /\ p (f x) = true.
Proof.
  unfold Js.some. rewrite existsb_exists. split.
  - intros [s [Hin Hp]]. apply in_map_iff in Hin.
    destruct Hin as [x [<- Hx]]. now exists x.
  - intros [x [Hx Hp]]. exists (f x). split; [now apply in_map | assumption].
Qed.

Lemma some_paths_iff (summary : DiffResult.t) (p : string -> bool)
    (P : string -> Prop) :
  (forall s, p s = true <-> P s) ->
  Js.some (paths summary) p = true <-> SomePath summary P.
Proof.
  intros HpP. unfold SomePath, Js.some. rewrite existsb_exists.
  split; intros [s [Hin Hs]]; exists s; (split; [assumption|]); now apply HpP.
Qed.

Lemma some_paths_false_iff (summary : DiffResult.t) (p : string -> bool)
    (P : string -> Prop) :
  (forall s, p s = true <-> P s) ->
  Js.some (paths summary) p = false <-> ~ SomePath summary P.
Proof.
  intros HpP. rewrite <- (some_paths_iff summary p P HpP).
  destruct (Js.some (paths summary) p); split; congruence.
Qed.

Lemma test_rule_iff (s : string) :
  Js.includes s "test" || Js.includes s "spec" = true
  <-> Js.Contains s "test" \/ Js.Contains s "spec".
Proof. now rewrite orb_true_iff, !includes_iff. Qed.

Lemma docs_rule_iff (s : string) :
  Js.includes s "README" || Js.endsWith s ".md" = true
  <-> Js.Contains s "README" \/ Js.EndsWith s ".md".
Proof. now rewrite orb_true_iff, includes_iff, endsWith_iff. Qed.

Lemma chore_rule_iff (s : string) :
  Js.includes s "package.json" = true <-> Js.Contains s "package.json".
Proof. apply includes_iff. Qed.

Lemma type_name_truthy (t : CommitType) : Js.truthy (type_name t) = true.
Proof. destruct t; reflexivity. Qed.

Lemma detectType_explicit (t : CommitType) (summary : DiffResult.t) :
  detectType (Some t) summary = t.
Proof. unfold detectType. now rewrite type_name_truthy. Qed.

Lemma descriptionOf_table (t : CommitType) :
  descriptionOf (type_name t) = descriptionTable t.
Proof. destruct t; reflexivity. Qed.

Lemma descriptionOf_unmapped (s : string) :
  s <> "feat" -> s <> "fix" -> s <> "docs" -> s <> "refactor" ->
  s <> "test" -> s <> "chore" ->
  descriptionOf s = "make changes".
Proof.
  intros H1 H2 H3 H4 H5 H6. unfold descriptionOf.
  apply String.eqb_neq in H1, H2, H3, H4, H5, H6.
  now rewrite H1, H2, H3, H4, H5, H6.
Qed.

(** The five rules of [autoDetect], one implication each. *)
Lemma autoDetect_rules (summary : DiffResult.t) :
  let isTest :=
    SomePath summary (fun p => Js.Contains p "test" \/ Js.Contains p "spec") in
  let isDocs :=
    SomePath summary (fun p => Js.Contains p "README" \/ Js.EndsWith p ".md") in
  let isChore := SomePath summary (fun p => Js.Contains p "package.json") in
  let ins := DiffResult.insertions summary in
  let del := DiffResult.deletions summary in
  (isTest -> autoDetect summary = Test) /\
  (~ isTest -> isDocs -> autoDetect summary = Docs) /\
  (~ isTest -> ~ isDocs -> isChore -> autoDetect summary = Chore) /\
  (~ isTest -> ~ isDocs -> ~ isChore -> (del < ins)%N ->
   autoDetect summary = Feat) /\
  (~ isTest -> ~ isDocs -> ~ isChore -> (ins <= del)%N ->
   autoDetect summary = Fix).
Proof.
  intros isTest isDocs isChore ins del. unfold autoDetect.
  fold (paths summary).
  pose proof (some_paths_iff summary _ _ test_rule_iff) as HT.
  pose proof (some_paths_iff summary _ _ docs_rule_iff) as HD.
  pose proof (some_paths_iff summary _ _ chore_rule_iff) as HC.
  fold isTest in HT. fold isDocs in HD. fold isChore in HC.
  destruct (Js.some (paths summary)
              (fun f => Js.includes f "test" || Js.includes f "spec")) eqn:ET.
  { assert (isTest) by now apply HT. repeat split; tauto. }
  assert (~ isTest) as NT by (rewrite <- HT; discriminate).
  destruct (Js.some (paths summary)
              (fun f => Js.includes f "README" || Js.endsWith f ".md")) eqn:ED.
  { assert (isDocs) by now apply HD. repeat split; tauto. }
  assert (~ isDocs) as ND by (rewrite <- HD; discriminate).
  destruct (Js.some (paths summary)
              (fun f => Js.includes f "package.json")) eqn:EC.
  { assert (isChore) by now apply HC. repeat split; tauto. }
  assert (~ isChore) as NC by (rewrite <- HC; discriminate).
  fold ins del.
  destruct (N.ltb_spec del ins) as [L|L]; repeat split; intros; try tauto;
    try reflexivity; lia.
Qed.

(** *** Runs on a working copy that can be read *)

Variable w : World.t.
Variable rootDir : string.
Variable git : SimpleGit.t.
Variable summary : DiffResult.t.
Hypothesis opened : World.simpleGit w rootDir = Return git.
Hypothesis summarized : SimpleGit.diffSummary git = Return summary.

(** No pending change: the sentinel string, after two calls. *)
Lemma run_generate_empty (type : option CommitType) :
  DiffResult.files summary = [] ->
  run (generateCommitMessage w rootDir type)
  = (Return (Text "No changes detected in the repository"),
     [GitOpen rootDir; GitDiffSummary]).
Proof.
  intros E. unfold run, generateCommitMessage.
  awaited opened. awaited summarized. rewrite E. reflexivity.
Qed.

(** Some pending change and a full diff that can be fetched: the composed
  object, after three calls. *)
Lemma run_generate_nonempty (type : option CommitType) (diffText : string) :
  DiffResult.files summary <> [] ->
  SimpleGit.diff git [] = Return diffText ->
  run (generateCommitMessage w rootDir type)
  = (Return (Object (compose summary (detectType type summary))),
     [GitOpen rootDir; GitDiffSummary; GitDiff []]).
Proof.
  intros NE D. unfold run, generateCommitMessage.
  awaited opened. awaited summarized.
  destruct (DiffResult.files summary) as [|f fs] eqn:E; [contradiction|].
  cbn [List.length Nat.eqb]. awaited D. reflexivity.
Qed.

(** C1. With at least one changed file and no explicit type, the type of
  the returned statistics follows the first rule that applies, in this
  order: a path containing "test" or "spec" gives test; otherwise a path
  containing "README" or ending in ".md" gives docs; otherwise a path
  containing "package.json" gives chore; otherwise more insertions than
  deletions gives feat; otherwise fix. *)
Theorem autodetect_priority (diffText : string) :
  DiffResult.files summary <> [] ->
  SimpleGit.diff git [] = Return diffText ->
  exists r,
    outcome (generateCommitMessage w rootDir None) = Return (Object r) /\
    let detected := Stats.type (CommitMessage.stats r) in
    let isTest :=
      SomePath summary
        (fun p => Js.Contains p "test" \/ Js.Contains p "spec") in
    let isDocs :=
      SomePath summary
        (fun p => Js.Contains p "README" \/ Js.EndsWith p ".md") in
    let isChore := SomePath summary (fun p => Js.Contains p "package.json") in
    let ins := DiffResult.insertions summary in
    let del := DiffResult.deletions summary in
    (isTest -> detected = Test) /\
    (~ isTest -> isDocs -> detected = Docs) /\
    (~ isTest -> ~ isDocs -> isChore -> detected = Chore) /\
    (~ isTest -> ~ isDocs -> ~ isChore -> (del < ins)%N -> detected = Feat) /\
    (~ isTest -> ~ isDocs -> ~ isChore -> (ins <= del)%N -> detected = Fix).
Proof.
  intros NE D. eexists. split.
  - unfold outcome. rewrite (run_generate_nonempty None diffText NE D).
    reflexivity.
  - cbn [compose CommitMessage.stats Stats.type detectType].
    exact (autoDetect_rules summary).
Qed.

(** C2. When the change summary has no file, the function returns the
  string "No changes detected in the repository" and nothing else happens:
  the only calls are the opening of the working copy and the summary (the
  full diff is not fetched), whether or not a type was given. *)
Theorem no_changes_sentinel (type : option CommitType) :
  DiffResult.files summary = [] ->
  outcome (generateCommitMessage w rootDir type)
  = Return (Text "No changes detected in the repository") /\
  trace (generateCommitMessage w rootDir type)
  = [GitOpen rootDir; GitDiffSummary] /\
  outcome (generateCommitMessage w rootDir type)
  = outcome (generateCommitMessage w rootDir None).
Proof.
  intros E. unfold outcome, trace.
  rewrite (run_generate_empty type E), (run_generate_empty None E).
  repeat split.
Qed.

End CommitMessageFacts.

(* ================================================================== *)
(** ** Scope, message and statistics of a composed result *)
(* ================================================================== *)

Section ComposedFacts.
Import Async Tools Props.

Lemma append_cons_neq (s : string) (c : ascii) (t : string) :
  s <> s ++ String c t.
Proof.
  induction s as [|x s IH]; simpl; [discriminate|].
  intros H. injection H as H. now apply IH.
Qed.

Lemma truthy_append_cons (a : string) (c : ascii) (b : string) :
  Js.truthy (a ++ String c b) = true.
Proof. destruct a; reflexivity. Qed.

(** One changed file under a non-empty first segment: that segment, in
  parentheses. *)
Lemma scopeText_segment (summary : DiffResult.t) (f : DiffResultFile.t)
    (seg tail : string) :
  DiffResult.files summary = [f] ->
  DiffResultFile.file f = seg ++ "/" ++ tail ->
  ~ Js.Contains seg "/" -> seg <> "" ->
  scopeTextOf summary = "(" ++ seg ++ ")".
Proof.
  intros E P NS NE. apply includes_false_iff in NS.
  destruct (split_first_segment seg tail "/" NS) as [segs S].
  unfold scopeTextOf, scopeOf. rewrite E. cbn [List.length Nat.eqb nth_error].
  rewrite P. change ("/" ++ tail) with (String "/" tail). rewrite S.
  cbn [nth_error]. apply truthy_iff in NE. rewrite NE.
  pose proof (append_cons_neq seg "/" tail) as N.
  apply String.eqb_neq in N. rewrite N. reflexivity.
Qed.

(** One changed file whose path starts with the separator: the first
  segment is empty and no scope is written. *)
Lemma scopeText_leading_separator (summary : DiffResult.t)
    (f : DiffResultFile.t) (tail : string) :
  DiffResult.files summary = [f] ->
  DiffResultFile.file f = "/" ++ tail ->
  scopeTextOf summary = "".
Proof.
  intros E P. unfold scopeTextOf, scopeOf. rewrite E.
  cbn [List.length Nat.eqb nth_error]. rewrite P. reflexivity.
Qed.

(** One changed file without separator: the candidate is the path itself
  and no scope is written. *)
Lemma scopeText_no_separator (summary : DiffResult.t) (f : DiffResultFile.t) :
  DiffResult.files summary = [f] ->
  ~ Js.Contains (DiffResultFile.file f) "/" ->
  scopeOf summary = Some (DiffResultFile.file f) /\ scopeTextOf summary = "".
Proof.
  intros E NS. apply includes_false_iff in NS.
  unfold scopeTextOf, scopeOf. rewrite E.
  cbn [List.length Nat.eqb nth_error].
  rewrite (split_no_sep _ _ NS). cbn [nth_error]. split; [reflexivity|].
  rewrite String.eqb_refl, andb_false_r. reflexivity.
Qed.

(** Several changed files: no scope. *)
Lemma scopeText_many (summary : DiffResult.t) :
  1 < List.length (DiffResult.files summary) -> scopeTextOf summary = "".
Proof.
  intros L. unfold scopeTextOf, scopeOf.
  destruct (DiffResult.files summary) as [|f [|g fs]]; simpl in L; try lia.
  reflexivity.
Qed.

(** The scope text is empty or a parenthesised string. *)
Lemma scopeText_shape (summary : DiffResult.t) :
  scopeTextOf summary = "" \/
  exists scope, scopeTextOf summary = "(" ++ scope ++ ")".
Proof.
  unfold scopeTextOf. destruct (scopeOf summary) as [scope|]; [|now left].
  destruct (nth_error (DiffResult.files summary) 0) as [f|]; [|now left].
  destruct (Js.truthy scope && negb (scope =? DiffResultFile.file f))%bool;
    [right; now exists scope | now left].
Qed.

Lemma compose_message (summary : DiffResult.t) (t : CommitType) :
  CommitMessage.commitMessage (compose summary t)
  = type_name t ++ scopeTextOf summary ++ ": " ++ descriptionTable t
    ++ bodyLine (List.length (DiffResult.files summary))
         (DiffResult.insertions summary) (DiffResult.deletions summary).
Proof.
  unfold compose, bodyLine. cbn [CommitMessage.commitMessage].
  now rewrite descriptionOf_table.
Qed.

Variable w : World.t.
Variable rootDir : string.
Variable git : SimpleGit.t.
Variable summary : DiffResult.t.
Variable diffText : string.
Hypothesis opened : World.simpleGit w rootDir = Return git.
Hypothesis summarized : SimpleGit.diffSummary git = Return summary.
Hypothesis nonEmpty : DiffResult.files summary <> [].
Hypothesis fetched : SimpleGit.diff git [] = Return diffText.

Lemma outcome_generate (type : option CommitType) :
  outcome (generateCommitMessage w rootDir type)
  = Return (Object (compose summary (detectType type summary))).
Proof.
  unfold outcome.
  now rewrite (run_generate_nonempty w rootDir git summary opened summarized
                 type diffText nonEmpty fetched).
Qed.

(** C3. For a non-empty summary the commit message is the type, the
  optional parenthesised scope, a colon and a space, the description of
  the type, a blank line and the line with the three counts; the
  description is the one of the fixed table, and any string that is none
  of the six mapped names is described by "make changes"; the statistics
  are the number of summary entries and the summary's totals; the affected
  files are all changed paths in order, with no exclusion applied. *)
Theorem commit_message_format (type : option CommitType) :
  exists r,
    outcome (generateCommitMessage w rootDir type) = Return (Object r) /\
    let t := Stats.type (CommitMessage.stats r) in
    (exists scopeText,
        (scopeText = "" \/ exists scope, scopeText = "(" ++ scope ++ ")") /\
        CommitMessage.commitMessage r
        = type_name t ++ scopeText ++ ": " ++ descriptionTable t
          ++ Js.nl ++ Js.nl
          ++ Js.number_toString
               (N.of_nat (List.length (DiffResult.files summary)))
          ++ " file(s) changed, "
          ++ Js.number_toString (DiffResult.insertions summary)
          ++ " insertion(s), "
          ++ Js.number_toString (DiffResult.deletions summary)
          ++ " deletion(s)") /\
    (forall s,
        s <> "feat" -> s <> "fix" -> s <> "docs" -> s <> "refactor" ->
        s <> "test" -> s <> "chore" -> descriptionOf s = "make changes") /\
    Stats.filesChanged (CommitMessage.stats r)
    = List.length (DiffResult.files summary) /\
    Stats.insertions (CommitMessage.stats r) = DiffResult.insertions summary /\
    Stats.deletions (CommitMessage.stats r) = DiffResult.deletions summary /\
    CommitMessage.affectedFiles r
    = map DiffResultFile.file (DiffResult.files summary).
Proof.
  eexists. split; [apply outcome_generate|].
  cbv zeta. split; [|split; [exact descriptionOf_unmapped | repeat split]].
  exists (scopeTextOf summary). split; [apply scopeText_shape|].
  rewrite compose_message. reflexivity.
Qed.

(** C4, as the code has it.  With exactly one changed file whose path is
  a non-empty first segment, a separator and a rest, the message starts
  with the type and that segment in parentheses.  With exactly one changed
  file whose path starts with the separator, or has no separator (the
  candidate is then the whole path), and with more than one changed file,
  the type is followed by the colon at once. *)
Theorem scope_rules (type : option CommitType) :
  exists r,
    outcome (generateCommitMessage w rootDir type) = Return (Object r) /\
    let t := Stats.type (CommitMessage.stats r) in
    let rest :=
      ": " ++ descriptionTable t
      ++ bodyLine (List.length (DiffResult.files summary))
           (DiffResult.insertions summary) (DiffResult.deletions summary) in
    (forall f seg tail,
        DiffResult.files summary = [f] ->
        DiffResultFile.file f = seg ++ "/" ++ tail ->
        ~ Js.Contains seg "/" -> seg <> "" ->
        CommitMessage.commitMessage r
        = type_name t ++ "(" ++ seg ++ ")" ++ rest) /\
    (forall f tail,
        DiffResult.files summary = [f] ->
        DiffResultFile.file f = "/" ++ tail ->
        CommitMessage.commitMessage r = type_name t ++ rest) /\
    (forall f,
        DiffResult.files summary = [f] ->
        ~ Js.Contains (DiffResultFile.file f) "/" ->
        Js.split (DiffResultFile.file f) "/" = [DiffResultFile.file f] /\
        CommitMessage.commitMessage r = type_name t ++ rest) /\
    (1 < List.length (DiffResult.files summary) ->
     CommitMessage.commitMessage r = type_name t ++ rest).
Proof.
  eexists. split; [apply outcome_generate|].
  cbv zeta. cbn [compose CommitMessage.stats Stats.type].
  rewrite compose_message. split; [|split; [|split]].
  - intros f seg tail E P NS NE.
    rewrite (scopeText_segment summary f seg tail E P NS NE).
    now rewrite !append_assoc.
  - intros f tail E P.
    now rewrite (scopeText_leading_separator summary f tail E P).
  - intros f E NS. split.
    + apply split_no_sep. now apply includes_false_iff.
    + destruct (scopeText_no_separator summary f E NS) as [_ ->]. reflexivity.
  - intros L. now rewrite (scopeText_many summary L).
Qed.

(** C6. With a non-empty summary and an explicit type, the result is the
  one composed for that very type, whatever the paths and the counts are:
  the statistics carry the type, and the message starts with its name,
  followed at once by the parenthesised scope or the colon. *)
Theorem explicit_type_verbatim (t : CommitType) :
  exists r,
    outcome (generateCommitMessage w rootDir (Some t)) = Return (Object r) /\
    r = compose summary t /\
    Stats.type (CommitMessage.stats r) = t /\
    exists rest,
      CommitMessage.commitMessage r = type_name t ++ rest /\
      (Js.startsWith rest "(" = true \/ Js.startsWith rest ": " = true).
Proof.
  exists (compose summary t). split.
  - rewrite outcome_generate. now rewrite detectType_explicit.
  - split; [reflexivity|]. split; [reflexivity|].
    rewrite compose_message. eexists. split; [reflexivity|].
    destruct (scopeText_shape summary) as [-> | [scope ->]];
      [right | left]; reflexivity.
Qed.

End ComposedFacts.

(* ================================================================== *)
(** ** getFileChangesInDirectory *)
(* ================================================================== *)

Section ListChangesFacts.
Import Async Tools Props.

Lemma excludedb_iff (p : string) : excludedb p = true <-> Excluded p.
Proof.
  unfold excludedb, Excluded. now rewrite orb_true_iff, !String.eqb_eq.
Qed.

Lemma array_includes_excludeFiles (p : string) :
  Js.array_includes excludeFiles p = excludedb p.
Proof.
  unfold Js.array_includes, excludeFiles, excludedb. cbn [existsb].
  now rewrite orb_false_r, (String.eqb_sym "dist"), (String.eqb_sym "bun.lock").
Qed.

Lemma excluded_in_excludeFiles (p : string) : In p excludeFiles <-> Excluded p.
Proof.
  unfold excludeFiles, Excluded. simpl. intuition congruence.
Qed.

Lemma retained_iff (fs : list DiffResultFile.t) (p : string) :
  In p (retained fs)
  <-> In p (map DiffResultFile.file fs) /\ ~ Excluded p.
Proof.
  unfold retained. rewrite filter_In, negb_true_iff, <- excludedb_iff.
  destruct (excludedb p); intuition congruence.
Qed.

(** The loop, from any array built so far and any log. *)
Lemma collectDiffs_run (git : SimpleGit.t) (diffOf : string -> string)
    (fs : list DiffResultFile.t) :
  (forall p, In p (retained fs) ->
             SimpleGit.diff git ["--"; p] = Return (diffOf p)) ->
  forall diffs log,
    collectDiffs git fs diffs log
    = (Return (diffs ++ map (entry diffOf) (retained fs))%list,
       (log ++ map (fun p => GitDiff ["--"; p]) (retained fs))%list).
Proof.
  induction fs as [|f fs IH]; intros Hd diffs log.
  - unfold retained. simpl. unfold ret. now rewrite !app_nil_r.
  - cbn [collectDiffs]. rewrite array_includes_excludeFiles.
    unfold retained in *. cbn [map filter] in *.
    destruct (excludedb (DiffResultFile.file f)) eqn:E; cbn [negb] in *.
    + apply IH. exact Hd.
    + unfold bind, await. rewrite (Hd _ (or_introl eq_refl)).
      rewrite IH by (intros p Hp; apply Hd; now right).
      cbn [map]. now rewrite <- !app_assoc.
Qed.

(** The loop stops at the first retained file whose diff cannot be
  fetched, and rejects with what was thrown. *)
Lemma collectDiffs_throw (git : SimpleGit.t) (diffOf : string -> string)
    (pre : list DiffResultFile.t) (f : DiffResultFile.t)
    (post : list DiffResultFile.t) (e : Thrown) :
  (forall p, In p (retained pre) ->
             SimpleGit.diff git ["--"; p] = Return (diffOf p)) ->
  ~ Excluded (DiffResultFile.file f) ->
  SimpleGit.diff git ["--"; DiffResultFile.file f] = Throw e ->
  forall diffs log,
    fst (collectDiffs git (pre ++ f :: post) diffs log) = Throw e.
Proof.
  intros Hd NX T. induction pre as [|g pre IH]; intros diffs log.
  - cbn [app collectDiffs]. rewrite array_includes_excludeFiles.
    rewrite <- excludedb_iff in NX.
    destruct (excludedb (DiffResultFile.file f)); [congruence|].
    unfold bind, await. now rewrite T.
  - cbn [app collectDiffs]. rewrite array_includes_excludeFiles.
    unfold retained in *. cbn [map filter] in *.
    destruct (excludedb (DiffResultFile.file g)) eqn:E; cbn [negb] in *.
    + apply IH. exact Hd.
    + unfold bind at 1, await. rewrite (Hd _ (or_introl eq_refl)).
      apply IH. intros p Hp. apply Hd. now right.
Qed.

(** C7. On a working copy that can be read, the tool returns one entry
  per path of the summary that is neither "dist" nor "bun.lock", in the
  summary's order; the test is equality of the whole path, so "dist/app.js"
  is kept when it is among the changes; and the diff of each entry is what
  [git.diff(["--", path])] answered, fetched once per retained path. *)
Theorem list_changes_entries (w : World.t) (rootDir : string)
    (git : SimpleGit.t) (summary : DiffResult.t) (diffOf : string -> string) :
  World.simpleGit w rootDir = Return git ->
  SimpleGit.diffSummary git = Return summary ->
  (forall p, In p (paths summary) -> ~ Excluded p ->
             SimpleGit.diff git ["--"; p] = Return (diffOf p)) ->
  exists kept,
    kept = filter (fun p => negb (String.eqb p "dist" || String.eqb p "bun.lock"))
             (paths summary) /\
    (forall p, In p kept <-> In p (paths summary) /\ p <> "dist" /\ p <> "bun.lock") /\
    (In "dist/app.js" (paths summary) -> In "dist/app.js" kept) /\
    outcome (getFileChangesInDirectory w rootDir)
    = Return (map (fun p => {| FileDiff.file := p; FileDiff.diff := diffOf p |})
                kept) /\
    trace (getFileChangesInDirectory w rootDir)
    = GitOpen rootDir :: GitDiffSummary
      :: map (fun p => GitDiff ["--"; p]) kept.
Proof.
  intros O S D. exists (retained (DiffResult.files summary)).
  assert (forall p, In p (retained (DiffResult.files summary))
                    <-> In p (paths summary) /\ p <> "dist" /\ p <> "bun.lock")
    as K.
  { intros p. rewrite retained_iff. unfold Excluded, paths. tauto. }
  split; [reflexivity|]. split; [exact K|]. split.
  { intros I. apply K. repeat split; [assumption | discriminate | discriminate]. }
  assert (run (getFileChangesInDirectory w rootDir)
          = (Return (map (entry diffOf) (retained (DiffResult.files summary))),
             GitOpen rootDir :: GitDiffSummary
             :: map (fun p => GitDiff ["--"; p])
                  (retained (DiffResult.files summary)))) as R.
  { unfold run, getFileChangesInDirectory, bind at 1, await at 1.
    rewrite O. unfold bind at 1, await at 1. rewrite S.
    rewrite (collectDiffs_run git diffOf); [reflexivity|].
    intros p Hp. apply retained_iff in Hp. destruct Hp as [Hin Hx].
    now apply D. }
  unfold outcome, trace. rewrite R. split; reflexivity.
Qed.

End ListChangesFacts.

(* ================================================================== *)
(** ** writeReviewToMarkdown *)
(* ================================================================== *)

Section WriteReviewFacts.
Import Async Tools Props.

Lemma toISOString_truthy (tv : Z) : Js.truthy (Date.toISOString tv) = true.
Proof.
  unfold Date.toISOString.
  destruct (Date.civil (tv / 86400000)) as [[y m] d].
  destruct (Date.yearString y); reflexivity.
Qed.

Lemma no_heading_test (content : string) :
  negb (Js.includes content "##") && negb (Js.includes content "###")
  = negb (Js.includes content "##").
Proof.
  destruct (Js.includes content "##") eqn:E2; [reflexivity|].
  destruct (Js.includes content "###") eqn:E3; [|reflexivity].
  apply includes_iff in E3. destruct E3 as [pre [post ->]].
  apply includes_false_iff in E2. exfalso. apply E2.
  exists pre, (String "#" post). reflexivity.
Qed.

(** The document, part by part. *)
Lemma markdownContent_layout (now : Z) (i : WriteMarkdownInput.t) :
  markdownContentOf now i
  = "# "
    ++ match WriteMarkdownInput.title i with
       | Some (String c t) => String c t
       | _ => "Code Review"
       end
    ++ Js.nl ++ Js.nl
    ++ (if WriteMarkdownInput.includeTimestamp i
        then "**Generated:** " ++ Date.toISOString now ++ Js.nl ++ Js.nl
        else "")
    ++ "---" ++ Js.nl ++ Js.nl
    ++ WriteMarkdownInput.reviewContent i
    ++ (if Js.includes (WriteMarkdownInput.reviewContent i) "##"
        then ""
        else summarySection).
Proof.
  unfold markdownContentOf, summarySection. rewrite no_heading_test.
  assert (match WriteMarkdownInput.title i with
          | Some t => if Js.truthy t then t else "Code Review"
          | None => "Code Review"
          end
          = match WriteMarkdownInput.title i with
            | Some (String c t) => String c t
            | _ => "Code Review"
            end) as ->.
  { destruct (WriteMarkdownInput.title i) as [[|c t]|]; reflexivity. }
  destruct (WriteMarkdownInput.includeTimestamp i);
    [rewrite toISOString_truthy|];
    destruct (Js.includes (WriteMarkdownInput.reviewContent i) "##");
    cbn [negb]; rewrite ?append_assoc, ?append_nil_r; reflexivity.
Qed.

Variable w : World.t.
Variable i : WriteMarkdownInput.t.

Let filePath := WriteMarkdownInput.filePath i.
Let dir := World.dirname w filePath.
Let doc := markdownContentOf (World.now w) i.

Lemma run_write_ok :
  World.mkdir w dir = Return tt ->
  World.writeFile w filePath doc = Return tt ->
  run (writeReviewToMarkdown w i)
  = (Return (Written filePath
               ("Code review successfully written to " ++ filePath)
               (String.length doc)),
     [FsMkdir dir true; FsWriteFile filePath doc]).
Proof.
  intros Hm Hw. unfold run, writeReviewToMarkdown, try_catch, bind, await.
  fold filePath. fold dir. rewrite Hm. cbv beta iota zeta.
  fold doc. rewrite Hw. reflexivity.
Qed.

Lemma run_write_mkdir_throws (e : Thrown) :
  World.mkdir w dir = Throw e ->
  run (writeReviewToMarkdown w i)
  = (Return (Failed (messageOf e) filePath), [FsMkdir dir true]).
Proof.
  intros Hm. unfold run, writeReviewToMarkdown, try_catch, bind, await.
  fold filePath. fold dir. rewrite Hm. reflexivity.
Qed.

Lemma run_write_writeFile_throws (e : Thrown) :
  World.mkdir w dir = Return tt ->
  World.writeFile w filePath doc = Throw e ->
  run (writeReviewToMarkdown w i)
  = (Return (Failed (messageOf e) filePath),
     [FsMkdir dir true; FsWriteFile filePath doc]).
Proof.
  intros Hm Hw. unfold run, writeReviewToMarkdown, try_catch, bind, await.
  fold filePath. fold dir. rewrite Hm. cbv beta iota zeta.
  fold doc. rewrite Hw. reflexivity.
Qed.

(** Whatever the file system does, the call fulfils. *)
Lemma write_fulfils :
  (World.mkdir w dir = Return tt /\ World.writeFile w filePath doc = Return tt
   /\ outcome (writeReviewToMarkdown w i)
      = Return (Written filePath
                  ("Code review successfully written to " ++ filePath)
                  (String.length doc)))
  \/ (exists e,
        (World.mkdir w dir = Throw e
         \/ (World.mkdir w dir = Return tt
             /\ World.writeFile w filePath doc = Throw e))
        /\ outcome (writeReviewToMarkdown w i)
           = Return (Failed (messageOf e) filePath)).
Proof.
  unfold outcome.
  destruct (World.mkdir w dir) as [[]|e] eqn:Hm.
  - destruct (World.writeFile w filePath doc) as [[]|e] eqn:Hw.
    + left. now rewrite (run_write_ok Hm Hw).
    + right. exists e. rewrite (run_write_writeFile_throws e Hm Hw). auto.
  - right. exists e. rewrite (run_write_mkdir_throws e Hm). auto.
Qed.

(** C8, as the code has it.  When the directory can be made and the file
  written, the file receives exactly: the heading of the title, which is
  "Code Review" when the title is absent or empty; the line of the
  generation time in ISO-8601 form if and only if [includeTimestamp] holds;
  the rule; the review as given; and the summary section if and only if
  the review contains no "##".  [includeTimestamp] is true when the caller
  leaves it out. *)
Theorem review_document_layout :
  World.mkdir w dir = Return tt ->
  World.writeFile w filePath doc = Return tt ->
  run (writeReviewToMarkdown w i)
  = (Return (Written filePath
               ("Code review successfully written to " ++ filePath)
               (String.length doc)),
     [FsMkdir dir true; FsWriteFile filePath doc]) /\
  (exists title stamp closing,
      doc = "# " ++ title ++ Js.nl ++ Js.nl
            ++ stamp
            ++ "---" ++ Js.nl ++ Js.nl
            ++ WriteMarkdownInput.reviewContent i
            ++ closing /\
      (forall t, WriteMarkdownInput.title i = Some t -> t <> "" -> title = t) /\
      (WriteMarkdownInput.title i = None
       \/ WriteMarkdownInput.title i = Some "" -> title = "Code Review") /\
      (WriteMarkdownInput.includeTimestamp i = true ->
       stamp = "**Generated:** " ++ Date.toISOString (World.now w)
               ++ Js.nl ++ Js.nl) /\
      (WriteMarkdownInput.includeTimestamp i = false -> stamp = "") /\
      (~ Js.Contains (WriteMarkdownInput.reviewContent i) "##" ->
       closing = Js.nl ++ Js.nl ++ "## Summary" ++ Js.nl ++ Js.nl
                 ++ "This review was generated automatically. Please review the suggestions and apply them as appropriate."
                 ++ Js.nl) /\
      (Js.Contains (WriteMarkdownInput.reviewContent i) "##" ->
       closing = "")) /\
  (forall a parsed,
      writeMarkdownSchema a = Some parsed ->
      WriteMarkdownArgs.includeTimestamp a = None ->
      WriteMarkdownInput.includeTimestamp parsed = true).
Proof.
  intros Hm Hw. split; [exact (run_write_ok Hm Hw)|]. split.
  - eexists _, _, _. split; [unfold doc; apply markdownContent_layout|].
    repeat split.
    + intros t -> Ht. destruct t; [contradiction | reflexivity].
    + intros [-> | ->]; reflexivity.
    + now intros ->.
    + now intros ->.
    + intros N. apply includes_false_iff in N. now rewrite N.
    + intros C. apply includes_iff in C. now rewrite C.
  - intros a parsed P N. unfold writeMarkdownSchema in P.
    destruct (min1 (WriteMarkdownArgs.filePath a)
              && min1 (WriteMarkdownArgs.reviewContent a))%bool;
      [|discriminate].
    injection P as <-. cbn [WriteMarkdownInput.includeTimestamp].
    now rewrite N.
Qed.

End WriteReviewFacts.

(* ================================================================== *)
(** ** Failures: kept inside or passed on *)
(* ================================================================== *)

Section FailureFacts.
Import Async Tools Props.

Lemma open_throws (w : World.t) (rootDir : string) (e : Thrown)
    (type : option CommitType) :
  World.simpleGit w rootDir = Throw e ->
  outcome (getFileChangesInDirectory w rootDir) = Throw e /\
  outcome (generateCommitMessage w rootDir type) = Throw e.
Proof.
  intros T. unfold outcome, run.
  split; [unfold getFileChangesInDirectory | unfold generateCommitMessage];
    awaited T; reflexivity.
Qed.

Lemma summary_throws (w : World.t) (rootDir : string) (git : SimpleGit.t)
    (e : Thrown) (type : option CommitType) :
  World.simpleGit w rootDir = Return git ->
  SimpleGit.diffSummary git = Throw e ->
  outcome (getFileChangesInDirectory w rootDir) = Throw e /\
  outcome (generateCommitMessage w rootDir type) = Throw e.
Proof.
  intros O T. unfold outcome, run.
  split; [unfold getFileChangesInDirectory | unfold generateCommitMessage];
    awaited O; awaited T; reflexivity.
Qed.

Lemma full_diff_throws (w : World.t) (rootDir : string) (git : SimpleGit.t)
    (summary : DiffResult.t) (e : Thrown) (type : option CommitType) :
  World.simpleGit w rootDir = Return git ->
  SimpleGit.diffSummary git = Return summary ->
  DiffResult.files summary <> [] ->
  SimpleGit.diff git [] = Throw e ->
  outcome (generateCommitMessage w rootDir type) = Throw e.
Proof.
  intros O S NE T. unfold outcome, run, generateCommitMessage.
  awaited O. awaited S.
  destruct (DiffResult.files summary); [contradiction|].
  cbn [List.length Nat.eqb]. awaited T. reflexivity.
Qed.

Lemma file_diff_throws (w : World.t) (rootDir : string) (git : SimpleGit.t)
    (summary : DiffResult.t) (diffOf : string -> string)
    (pre : list DiffResultFile.t) (f : DiffResultFile.t)
    (post : list DiffResultFile.t) (e : Thrown) :
  World.simpleGit w rootDir = Return git ->
  SimpleGit.diffSummary git = Return summary ->
  DiffResult.files summary = (pre ++ f :: post)%list ->
  (forall p, In p (retained pre) ->
             SimpleGit.diff git ["--"; p] = Return (diffOf p)) ->
  ~ Excluded (DiffResultFile.file f) ->
  SimpleGit.diff git ["--"; DiffResultFile.file f] = Throw e ->
  outcome (getFileChangesInDirectory w rootDir) = Throw e.
Proof.
  intros O S E D NX T. unfold outcome, run, getFileChangesInDirectory.
  awaited O. awaited S. rewrite E.
  now apply (collectDiffs_throw git diffOf).
Qed.

(** C9. [writeReviewToMarkdown] fulfils for every input: with the success
  object when the directory was made and the file written, and with the
  failure object, carrying the message of what was thrown, when either
  step threw.  The two tools that read the working copy do not catch:
  whatever opening it, summarising it or fetching a diff throws is what
  they reject with. *)
Theorem write_never_throws_reads_propagate :
  (forall (w : World.t) (i : WriteMarkdownInput.t),
      let filePath := WriteMarkdownInput.filePath i in
      let dir := World.dirname w filePath in
      let doc := markdownContentOf (World.now w) i in
      (exists r, outcome (writeReviewToMarkdown w i) = Return r) /\
      (World.mkdir w dir = Return tt ->
       World.writeFile w filePath doc = Return tt ->
       outcome (writeReviewToMarkdown w i)
       = Return (Written filePath
                   ("Code review successfully written to " ++ filePath)
                   (String.length doc))) /\
      (forall e,
          World.mkdir w dir = Throw e
          \/ (World.mkdir w dir = Return tt
              /\ World.writeFile w filePath doc = Throw e) ->
          outcome (writeReviewToMarkdown w i)
          = Return (Failed
                      match e with
                      | ErrorObject message => message
                      | OtherValue => "Unknown error occurred"
                      end
                      filePath))) /\
  (forall w rootDir type e,
      World.simpleGit w rootDir = Throw e ->
      outcome (getFileChangesInDirectory w rootDir) = Throw e /\
      outcome (generateCommitMessage w rootDir type) = Throw e) /\
  (forall w rootDir type git e,
      World.simpleGit w rootDir = Return git ->
      SimpleGit.diffSummary git = Throw e ->
      outcome (getFileChangesInDirectory w rootDir) = Throw e /\
      outcome (generateCommitMessage w rootDir type) = Throw e) /\
  (forall w rootDir type git summary e,
      World.simpleGit w rootDir = Return git ->
      SimpleGit.diffSummary git = Return summary ->
      DiffResult.files summary <> [] ->
      SimpleGit.diff git [] = Throw e ->
      outcome (generateCommitMessage w rootDir type) = Throw e) /\
  (forall w rootDir git summary diffOf pre f post e,
      World.simpleGit w rootDir = Return git ->
      SimpleGit.diffSummary git = Return summary ->
      DiffResult.files summary = (pre ++ f :: post)%list ->
      (forall p, In p (map DiffResultFile.file pre) -> ~ Excluded p ->
                 SimpleGit.diff git ["--"; p] = Return (diffOf p)) ->
      ~ Excluded (DiffResultFile.file f) ->
      SimpleGit.diff git ["--"; DiffResultFile.file f] = Throw e ->
      outcome (getFileChangesInDirectory w rootDir) = Throw e).
Proof.
  split; [|split; [|split; [|split]]].
  - intros w i filePath dir doc. split; [|split].
    + destruct (write_fulfils w i) as [[_ [_ H]] | [e [_ H]]]; eauto.
    + intros Hm Hw. unfold outcome. now rewrite (run_write_ok w i Hm Hw).
    + intros e [Hm | [Hm Hw]]; unfold outcome.
      * now rewrite (run_write_mkdir_throws w i e Hm).
      * now rewrite (run_write_writeFile_throws w i e Hm Hw).
  - intros w rootDir type e. apply open_throws.
  - intros w rootDir type git e. apply summary_throws.
  - intros w rootDir type git summary e. apply full_diff_throws.
  - intros w rootDir git summary diffOf pre f post e O S E D NX T.
    apply (file_diff_throws w rootDir git summary diffOf pre f post e);
      try assumption.
    intros p Hp. apply retained_iff in Hp. destruct Hp. now apply D.
Qed.

End FailureFacts.

(* ================================================================== *)
(** ** Where the exclusion list applies, and what the output depends on *)
(* ================================================================== *)

Section SummaryFacts.
Import Async Tools Props.

(** C5, as the code has it.  The exclusion list is applied by
  [getFileChangesInDirectory] alone: none of the entries it returns has an
  excluded path.  [generateCommitMessage] works on the summary as git gave
  it: the affected files are all its paths, excluded ones among them, the
  number of files is the number of all its entries and the counts are its
  totals. *)
Theorem exclusion_only_in_list_changes (w : World.t) (rootDir : string)
    (git : SimpleGit.t) (summary : DiffResult.t) (diffOf : string -> string)
    (diffText : string) (type : option CommitType) :
  World.simpleGit w rootDir = Return git ->
  SimpleGit.diffSummary git = Return summary ->
  (forall p, In p (paths summary) -> ~ Excluded p ->
             SimpleGit.diff git ["--"; p] = Return (diffOf p)) ->
  DiffResult.files summary <> [] ->
  SimpleGit.diff git [] = Return diffText ->
  (exists ds,
      outcome (getFileChangesInDirectory w rootDir) = Return ds /\
      forall d, In d ds -> ~ In (FileDiff.file d) excludeFiles) /\
  (exists r,
      outcome (generateCommitMessage w rootDir type) = Return (Object r) /\
      CommitMessage.affectedFiles r = paths summary /\
      (forall p, In p (paths summary) -> In p excludeFiles ->
                 In p (CommitMessage.affectedFiles r)) /\
      Stats.filesChanged (CommitMessage.stats r)
      = List.length (DiffResult.files summary) /\
      Stats.insertions (CommitMessage.stats r)
      = DiffResult.insertions summary /\
      Stats.deletions (CommitMessage.stats r)
      = DiffResult.deletions summary).
Proof.
  intros O S D NE F. split.
  - assert (run (getFileChangesInDirectory w rootDir)
            = (Return (map (entry diffOf) (retained (DiffResult.files summary))),
               GitOpen rootDir :: GitDiffSummary
               :: map (fun p => GitDiff ["--"; p])
                    (retained (DiffResult.files summary)))) as R.
    { unfold run, getFileChangesInDirectory, bind at 1, await at 1.
      rewrite O. unfold bind at 1, await at 1. rewrite S.
      rewrite (collectDiffs_run git diffOf); [reflexivity|].
      intros p Hp. apply retained_iff in Hp. destruct Hp. now apply D. }
    eexists. split; [unfold outcome; rewrite R; reflexivity|].
    intros d Hd. apply in_map_iff in Hd. destruct Hd as [p [<- Hp]].
    apply retained_iff in Hp. cbn [entry FileDiff.file].
    rewrite excluded_in_excludeFiles. tauto.
  - eexists. split.
    + unfold outcome.
      rewrite (run_generate_nonempty w rootDir git summary O S type
                 diffText NE F).
      reflexivity.
    + cbn [compose CommitMessage.affectedFiles CommitMessage.stats
             Stats.filesChanged Stats.insertions Stats.deletions].
      unfold paths. repeat split. intros p Hp _. exact Hp.
Qed.

(** C10. Two invocations whose working copies give the same summary, with
  the same optional type, fulfil with equal values: the string when the
  summary is empty, and otherwise, once each full diff has been fetched,
  the same message, statistics and affected files, whatever the two diff
  texts are. *)
Theorem same_summary_same_output (w1 w2 : World.t) (rootDir1 rootDir2 : string)
    (git1 git2 : SimpleGit.t) (summary : DiffResult.t)
    (type : option CommitType) :
  World.simpleGit w1 rootDir1 = Return git1 ->
  World.simpleGit w2 rootDir2 = Return git2 ->
  SimpleGit.diffSummary git1 = Return summary ->
  SimpleGit.diffSummary git2 = Return summary ->
  (DiffResult.files summary <> [] ->
   exists diffText1 diffText2,
     SimpleGit.diff git1 [] = Return diffText1 /\
     SimpleGit.diff git2 [] = Return diffText2) ->
  exists out,
    outcome (generateCommitMessage w1 rootDir1 type) = Return out /\
    outcome (generateCommitMessage w2 rootDir2 type) = Return out.
Proof.
  intros O1 O2 S1 S2 F. unfold outcome.
  destruct (DiffResult.files summary) as [|f fs] eqn:E.
  - rewrite (run_generate_empty w1 rootDir1 git1 summary O1 S1 type E).
    rewrite (run_generate_empty w2 rootDir2 git2 summary O2 S2 type E).
    eexists. split; reflexivity.
  - assert (DiffResult.files summary <> []) as NE by (rewrite E; discriminate).
    rewrite <- E in F. destruct (F NE) as [d1 [d2 [F1 F2]]].
    rewrite (run_generate_nonempty w1 rootDir1 git1 summary O1 S1 type d1 NE F1).
    rewrite (run_generate_nonempty w2 rootDir2 git2 summary O2 S2 type d2 NE F2).
    eexists. split; reflexivity.
Qed.

End SummaryFacts.

(* ================================================================== *)
(** ** Concrete runs *)
(* ================================================================== *)

Import Async Tools Props.

Lemma summaryOf_nonempty (f : DiffResultFile.t) (fs : list DiffResultFile.t) :
  DiffResult.files (Sample.summaryOf (f :: fs)) <> [].
Proof. discriminate. Qed.

(** A test file with more deletions than insertions is still a test
  change. *)
Lemma autodetect_priority_witness :
  exists r,
    outcome (generateCommitMessage (Sample.world Sample.oneTest Sample.diffBody)
               "repo" None)
    = Return (Object r) /\
    Stats.type (CommitMessage.stats r) = Test.
Proof.
  destruct (autodetect_priority (Sample.world Sample.oneTest Sample.diffBody) "repo"
              (Sample.git Sample.oneTest Sample.diffBody) (Sample.summaryOf Sample.oneTest)
              eq_refl eq_refl "diff" (summaryOf_nonempty _ _) eq_refl)
    as [r [Hr [HT _]]].
  exists r. split; [exact Hr|]. apply HT.
  exists "src/tools.test.ts". split; [left; reflexivity|].
  left. exists "src/tools.", ".ts". reflexivity.
Defined.

Lemma no_changes_sentinel_witness :
  outcome (generateCommitMessage (Sample.world [] Sample.diffBody) "repo"
             (Some Feat))
  = Return (Text "No changes detected in the repository") /\
  trace (generateCommitMessage (Sample.world [] Sample.diffBody) "repo"
           (Some Feat))
  = [GitOpen "repo"; GitDiffSummary] /\
  outcome (generateCommitMessage (Sample.world [] Sample.diffBody) "repo"
             (Some Feat))
  = outcome (generateCommitMessage (Sample.world [] Sample.diffBody) "repo"
               None).
Proof.
  exact (no_changes_sentinel (Sample.world [] Sample.diffBody) "repo"
           (Sample.git [] Sample.diffBody) (Sample.summaryOf [])
           eq_refl eq_refl (Some Feat) eq_refl).
Defined.

(** The manifest example of the specification. *)
Lemma commit_message_format_witness :
  exists r,
    outcome (generateCommitMessage (Sample.world Sample.manifest Sample.diffBody)
               "repo" None)
    = Return (Object r) /\
    r = {| CommitMessage.commitMessage :=
             "chore: update dependencies/config" ++ Js.nl ++ Js.nl
             ++ "1 file(s) changed, 3 insertion(s), 1 deletion(s)";
           CommitMessage.stats :=
             {| Stats.filesChanged := 1; Stats.insertions := 3;
                Stats.deletions := 1; Stats.type := Chore |};
           CommitMessage.affectedFiles := ["package.json"] |}.
Proof.
  destruct (commit_message_format (Sample.world Sample.manifest Sample.diffBody)
              "repo" (Sample.git Sample.manifest Sample.diffBody)
              (Sample.summaryOf Sample.manifest) "diff"
              eq_refl eq_refl (summaryOf_nonempty _ _) eq_refl None)
    as [r [Hr _]].
  exists r. split; [exact Hr|].
  vm_compute in Hr. injection Hr as <-. reflexivity.
Defined.

Lemma scope_rules_witness :
  exists r,
    outcome (generateCommitMessage (Sample.world Sample.oneSource Sample.diffBody)
               "repo" None)
    = Return (Object r) /\
    CommitMessage.commitMessage r
    = type_name (Stats.type (CommitMessage.stats r)) ++ "(" ++ "src" ++ ")"
      ++ ": " ++ descriptionTable (Stats.type (CommitMessage.stats r))
      ++ bodyLine 1 12 4.
Proof.
  destruct (scope_rules (Sample.world Sample.oneSource Sample.diffBody)
              "repo" (Sample.git Sample.oneSource Sample.diffBody)
              (Sample.summaryOf Sample.oneSource) "diff"
              eq_refl eq_refl (summaryOf_nonempty _ _) eq_refl None)
    as [r [Hr [Hseg _]]].
  exists r. split; [exact Hr|].
  apply (Hseg (Sample.changed "src/tools.ts" 12 4) "src" "tools.ts");
    [reflexivity | reflexivity | | discriminate].
  apply includes_false_iff. reflexivity.
Defined.

(** C4 as stated fails: the only changed path, "/x", contains the
  separator, its first segment is empty, and the message carries no
  parenthesised scope. *)
Lemma scope_missing_after_leading_separator :
  Js.includes "/x" "/" = true /\
  nth_error (Js.split "/x" "/") 0 = Some "" /\
  exists msg,
    outcome (generateCommitMessage (Sample.world Sample.rooted Sample.diffBody)
               "repo" None)
    = Return (Object
                {| CommitMessage.commitMessage := msg;
                   CommitMessage.stats :=
                     {| Stats.filesChanged := 1; Stats.insertions := 0;
                        Stats.deletions := 1; Stats.type := Fix |};
                   CommitMessage.affectedFiles := ["/x"] |}) /\
    msg = "fix: resolve issues" ++ Js.nl ++ Js.nl
          ++ "1 file(s) changed, 0 insertion(s), 1 deletion(s)" /\
    Js.startsWith msg ("fix" ++ "(" ++ "" ++ ")") = false /\
    Js.includes msg "()" = false.
Proof.
  split; [reflexivity|]. split; [reflexivity|].
  eexists. split; [vm_compute; reflexivity|].
  split; [reflexivity|]. split; reflexivity.
Qed.

Lemma exclusion_only_in_list_changes_witness :
  (exists ds,
      outcome (getFileChangesInDirectory
                 (Sample.world Sample.mixed Sample.diffBody) "repo")
      = Return ds /\
      forall d, In d ds -> ~ In (FileDiff.file d) excludeFiles) /\
  (exists r,
      outcome (generateCommitMessage
                 (Sample.world Sample.mixed Sample.diffBody) "repo" None)
      = Return (Object r) /\
      CommitMessage.affectedFiles r
      = ["src/a.ts"; "dist"; "dist/app.js"; "bun.lock"]).
Proof.
  destruct (exclusion_only_in_list_changes
              (Sample.world Sample.mixed Sample.diffBody) "repo"
              (Sample.git Sample.mixed Sample.diffBody) (Sample.summaryOf Sample.mixed)
              (fun p => Sample.diffBody ["--"; p]) "diff" None
              eq_refl eq_refl (fun p _ _ => eq_refl) (summaryOf_nonempty _ _) eq_refl)
    as [L [r [Hr [Ha _]]]].
  split; [exact L|]. exists r. split; [exact Hr | exact Ha].
Defined.

(** C5 as stated fails: the summary that [generateCommitMessage] consumes
  holds the excluded path "bun.lock", which is counted, decides the type
  through its insertions and is listed among the affected files. *)
Lemma excluded_path_reaches_commit_message :
  In "bun.lock" excludeFiles /\
  outcome (generateCommitMessage (Sample.world Sample.lockfile Sample.diffBody)
             "repo" None)
  = Return (Object
              {| CommitMessage.commitMessage :=
                   "feat: add new functionality" ++ Js.nl ++ Js.nl
                   ++ "1 file(s) changed, 5 insertion(s), 0 deletion(s)";
                 CommitMessage.stats :=
                   {| Stats.filesChanged := 1; Stats.insertions := 5;
                      Stats.deletions := 0; Stats.type := Feat |};
                 CommitMessage.affectedFiles := ["bun.lock"] |}).
Proof.
  split; [right; left; reflexivity | vm_compute; reflexivity].
Qed.

(** An explicit docs on a change that auto-detection would call test. *)
Lemma explicit_type_verbatim_witness :
  autoDetect (Sample.summaryOf Sample.oneTest) = Test /\
  exists r,
    outcome (generateCommitMessage (Sample.world Sample.oneTest Sample.diffBody)
               "repo" (Some Docs))
    = Return (Object r) /\
    Stats.type (CommitMessage.stats r) = Docs.
Proof.
  split; [reflexivity|].
  destruct (explicit_type_verbatim (Sample.world Sample.oneTest Sample.diffBody)
              "repo" (Sample.git Sample.oneTest Sample.diffBody)
              (Sample.summaryOf Sample.oneTest) "diff"
              eq_refl eq_refl (summaryOf_nonempty _ _) eq_refl Docs)
    as [r [Hr [_ [Ht _]]]].
  exists r. split; [exact Hr | exact Ht].
Defined.

(** "dist" and "bun.lock" are dropped, "dist/app.js" is kept. *)
Lemma list_changes_entries_witness :
  outcome (getFileChangesInDirectory (Sample.world Sample.mixed Sample.diffBody)
             "repo")
  = Return [ {| FileDiff.file := "src/a.ts";
                FileDiff.diff := "diff -- src/a.ts" |};
             {| FileDiff.file := "dist/app.js";
                FileDiff.diff := "diff -- dist/app.js" |} ].
Proof.
  destruct (list_changes_entries (Sample.world Sample.mixed Sample.diffBody) "repo"
              (Sample.git Sample.mixed Sample.diffBody) (Sample.summaryOf Sample.mixed)
              (fun p => Sample.diffBody ["--"; p])
              eq_refl eq_refl (fun p _ _ => eq_refl))
    as [kept [-> [_ [_ [H _]]]]].
  exact H.
Defined.

Lemma review_document_layout_witness :
  trace (writeReviewToMarkdown (Sample.world [] Sample.diffBody) Sample.review)
  = [FsMkdir "reviews" true;
     FsWriteFile "reviews/r.md"
       ("# Code Review" ++ Js.nl ++ Js.nl
        ++ "**Generated:** 2025-09-20T00:00:00.000Z" ++ Js.nl ++ Js.nl
        ++ "---" ++ Js.nl ++ Js.nl
        ++ "Looks fine."
        ++ Js.nl ++ Js.nl ++ "## Summary" ++ Js.nl ++ Js.nl
        ++ "This review was generated automatically. Please review the suggestions and apply them as appropriate."
        ++ Js.nl)].
Proof.
  exact (f_equal snd
           (proj1 (review_document_layout (Sample.world [] Sample.diffBody)
                     Sample.review eq_refl eq_refl))).
Defined.

(** C8 as stated fails.  A title that is present and empty does not give
  the heading "# " followed by that title: the default is written.  And a
  review whose only heading is written with a single "#" contains a
  heading marker, yet the summary section is appended to it. *)
Lemma empty_title_gets_default_heading :
  (WriteMarkdownInput.title Sample.untitled = Some "" /\
   exists doc,
     trace (writeReviewToMarkdown (Sample.world [] Sample.diffBody)
              Sample.untitled)
     = [FsMkdir "." true; FsWriteFile "r.md" doc] /\
     doc = "# Code Review" ++ Js.nl ++ Js.nl
           ++ "---" ++ Js.nl ++ Js.nl ++ "## Notes" /\
     doc <> "# " ++ "" ++ Js.nl ++ Js.nl
            ++ "---" ++ Js.nl ++ Js.nl ++ "## Notes") /\
  (Js.startsWith (WriteMarkdownInput.reviewContent Sample.headed) "# " = true /\
   exists doc,
     trace (writeReviewToMarkdown (Sample.world [] Sample.diffBody)
              Sample.headed)
     = [FsMkdir "." true; FsWriteFile "r.md" doc] /\
     doc = "# Review" ++ Js.nl ++ Js.nl
           ++ "---" ++ Js.nl ++ Js.nl ++ "# Findings" ++ summarySection /\
     doc <> "# Review" ++ Js.nl ++ Js.nl
            ++ "---" ++ Js.nl ++ Js.nl ++ "# Findings").
Proof.
  split.
  - split; [reflexivity|]. eexists. split; [vm_compute; reflexivity|].
    split; [reflexivity | discriminate].
  - split; [reflexivity|]. eexists. split; [vm_compute; reflexivity|].
    split; [reflexivity | discriminate].
Qed.

Lemma write_never_throws_reads_propagate_witness :
  outcome (writeReviewToMarkdown Sample.diskFull Sample.review)
  = Return (Failed "ENOSPC" "reviews/r.md") /\
  outcome (generateCommitMessage Sample.diskFull "repo" None)
  = Throw (ErrorObject "not a git repository").
Proof.
  destruct write_never_throws_reads_propagate as [W [O _]].
  split.
  - exact (proj2 (proj2 (W Sample.diskFull Sample.review)) (ErrorObject "ENOSPC")
             (or_intror (conj eq_refl eq_refl))).
  - exact (proj2 (O Sample.diskFull "repo" None
                    (ErrorObject "not a git repository") eq_refl)).
Defined.

(** Two working copies with the same summary and different diff texts. *)
Lemma same_summary_same_output_witness :
  exists out,
    outcome (generateCommitMessage (Sample.world Sample.oneSource Sample.diffBody)
               "here" None)
    = Return out /\
    outcome (generateCommitMessage
               (Sample.world Sample.oneSource (fun _ => "another diff")) "there" None)
    = Return out.
Proof.
  exact (same_summary_same_output
           (Sample.world Sample.oneSource Sample.diffBody)
           (Sample.world Sample.oneSource (fun _ => "another diff"))
           "here" "there"
           (Sample.git Sample.oneSource Sample.diffBody)
           (Sample.git Sample.oneSource (fun _ => "another diff"))
           (Sample.summaryOf Sample.oneSource) None
           eq_refl eq_refl eq_refl eq_refl
           (fun _ => ex_intro _ _ (ex_intro _ _ (conj eq_refl eq_refl)))).
Defined.


(* ================================================================== *)
(** ** Further properties of getFileChangesInDirectory *)
(* ================================================================== *)

Section ListChangesMore.
Import Order.

Lemma keptb_excludedb (p : string) : keptb p = negb (excludedb p).
Proof. reflexivity. Qed.

Lemma retained_keptb (fs : list DiffResultFile.t) :
  retained fs = filter keptb (map DiffResultFile.file fs).
Proof. reflexivity. Qed.

Lemma retained_nil_iff (fs : list DiffResultFile.t) :
  (forall p, In p (map DiffResultFile.file fs) -> Excluded p) ->
  retained fs = [].
Proof.
  intros H. induction fs as [|f fs IH]; [reflexivity|].
  unfold retained in *. cbn [map filter].
  assert (excludedb (DiffResultFile.file f) = true) as ->
      by (apply excludedb_iff, H; now left).
  cbn [negb]. apply IH. intros p Hp. apply H. now right.
Qed.

(** What the loop logs, however it ends: one diff per path asked, each
  path retained. *)
Lemma collectDiffs_log (git : SimpleGit.t) (fs : list DiffResultFile.t) :
  forall diffs log,
  exists evs,
    snd (collectDiffs git fs diffs log) = (log ++ evs)%list /\
    Forall (fun ev => exists p, ev = GitDiff ["--"; p] /\ In p (retained fs))
      evs.
Proof.
  induction fs as [|f fs IH]; intros diffs log.
  - exists []. cbn. now rewrite app_nil_r.
  - cbn [collectDiffs]. rewrite array_includes_excludeFiles.
    unfold retained in *. cbn [map filter].
    destruct (excludedb (DiffResultFile.file f)) eqn:E; cbn [negb].
    + apply IH.
    + unfold bind, await.
      destruct (SimpleGit.diff git ["--"; DiffResultFile.file f]) as [d|e].
      * destruct (IH (diffs ++ [ {| FileDiff.file := DiffResultFile.file f;
                                    FileDiff.diff := d |} ])%list
                    (log ++ [GitDiff ["--"; DiffResultFile.file f]])%list)
          as [evs [Hs Hf]].
        exists (GitDiff ["--"; DiffResultFile.file f] :: evs). split.
        -- rewrite Hs. now rewrite <- app_assoc.
        -- constructor.
           ++ exists (DiffResultFile.file f). split; [reflexivity | now left].
           ++ eapply Forall_impl; [|exact Hf].
              intros ev [p [-> Hp]]. exists p. split; [reflexivity | now right].
      * exists [GitDiff ["--"; DiffResultFile.file f]]. split; [reflexivity|].
        constructor; [|constructor].
        exists (DiffResultFile.file f). split; [reflexivity | now left].
Qed.

(** What the loop has done when it fulfils: one entry after the other for
  the retained paths, each with the diff that was read for it. *)
Lemma collectDiffs_sound (git : SimpleGit.t) (fs : list DiffResultFile.t) :
  forall diffs log ds log',
    collectDiffs git fs diffs log = (Return ds, log') ->
    exists ents,
      ds = (diffs ++ ents)%list /\
      map FileDiff.file ents = retained fs /\
      Forall (fun d => SimpleGit.diff git ["--"; FileDiff.file d]
                       = Return (FileDiff.diff d)) ents.
Proof.
  induction fs as [|f fs IH]; intros diffs log ds log' H.
  - cbn in H. injection H as <- _. exists []. rewrite app_nil_r.
    repeat split. constructor.
  - cbn [collectDiffs] in H. rewrite array_includes_excludeFiles in H.
    unfold retained in *. cbn [map filter].
    destruct (excludedb (DiffResultFile.file f)) eqn:E; cbn [negb].
    + exact (IH _ _ _ _ H).
    + unfold bind at 1, await at 1 in H.
      destruct (SimpleGit.diff git ["--"; DiffResultFile.file f])
        as [d|e] eqn:D; [|discriminate].
      destruct (IH _ _ _ _ H) as [ents [-> [Hm Hf]]].
      exists ({| FileDiff.file := DiffResultFile.file f; FileDiff.diff := d |}
              :: ents).
      split; [now rewrite <- app_assoc|]. split.
      * cbn [map FileDiff.file]. now rewrite Hm.
      * constructor; [exact D | exact Hf].
Qed.

(** The whole run when the diff of a retained file cannot be read. *)
Lemma collectDiffs_throw_run (git : SimpleGit.t) (diffOf : string -> string)
    (pre : list DiffResultFile.t) (f : DiffResultFile.t)
    (post : list DiffResultFile.t) (e : Thrown) :
  (forall p, In p (retained pre) ->
             SimpleGit.diff git ["--"; p] = Return (diffOf p)) ->
  ~ Excluded (DiffResultFile.file f) ->
  SimpleGit.diff git ["--"; DiffResultFile.file f] = Throw e ->
  forall diffs log,
    collectDiffs git (pre ++ f :: post) diffs log
    = (Throw e,
       (log ++ map (fun p => GitDiff ["--"; p]) (retained pre)
            ++ [GitDiff ["--"; DiffResultFile.file f]])%list).
Proof.
  intros Hd NX T. induction pre as [|g pre IH]; intros diffs log.
  - cbn [app collectDiffs]. rewrite array_includes_excludeFiles.
    rewrite <- excludedb_iff in NX.
    destruct (excludedb (DiffResultFile.file f)); [congruence|].
    unfold bind, await. now rewrite T.
  - cbn [app collectDiffs]. rewrite array_includes_excludeFiles.
    unfold retained in *. cbn [map filter] in *.
    destruct (excludedb (DiffResultFile.file g)) eqn:E; cbn [negb] in *.
    + apply IH. exact Hd.
    + unfold bind at 1, await at 1. rewrite (Hd _ (or_introl eq_refl)).
      rewrite IH by (intros p Hp; apply Hd; now right).
      cbn [map app]. now rewrite <- !app_assoc.
Qed.

(** X1. When every changed path is "dist" or "bun.lock" (and so when
  nothing changed at all), the tool returns the empty list and asks git
  for no diff: opening the working copy and reading its summary are the
  only calls. *)
Theorem list_changes_all_excluded (w : World.t) (rootDir : string)
    (git : SimpleGit.t) (summary : DiffResult.t) :
  World.simpleGit w rootDir = Return git ->
  SimpleGit.diffSummary git = Return summary ->
  (forall p, In p (paths summary) -> p = "dist" \/ p = "bun.lock") ->
  run (getFileChangesInDirectory w rootDir)
  = (Return [], [GitOpen rootDir; GitDiffSummary]).
Proof.
  intros O S X. unfold run, getFileChangesInDirectory.
  awaited O. awaited S.
  rewrite (collectDiffs_run git (fun p => p)).
  - now rewrite (retained_nil_iff _ X).
  - rewrite (retained_nil_iff _ X). intros p [].
Qed.

(** X2. The loop stops at the first retained file whose diff cannot be
  read: the tool rejects with what was thrown, the entries collected so
  far are lost, and no diff is asked for any later file. *)
Theorem list_changes_stops_at_first_failure (w : World.t) (rootDir : string)
    (git : SimpleGit.t) (summary : DiffResult.t) (diffOf : string -> string)
    (pre : list DiffResultFile.t) (f : DiffResultFile.t)
    (post : list DiffResultFile.t) (e : Thrown) :
  World.simpleGit w rootDir = Return git ->
  SimpleGit.diffSummary git = Return summary ->
  DiffResult.files summary = (pre ++ f :: post)%list ->
  (forall p, In p (map DiffResultFile.file pre) -> keptb p = true ->
             SimpleGit.diff git ["--"; p] = Return (diffOf p)) ->
  keptb (DiffResultFile.file f) = true ->
  SimpleGit.diff git ["--"; DiffResultFile.file f] = Throw e ->
  run (getFileChangesInDirectory w rootDir)
  = (Throw e,
     GitOpen rootDir :: GitDiffSummary
     :: (map (fun p => GitDiff ["--"; p])
           (filter keptb (map DiffResultFile.file pre))
         ++ [GitDiff ["--"; DiffResultFile.file f]])%list).
Proof.
  intros O S E D K T. unfold run, getFileChangesInDirectory.
  awaited O. awaited S. rewrite E.
  rewrite (collectDiffs_throw_run git diffOf pre f post e); [reflexivity| |
    |exact T].
  - intros p Hp. rewrite retained_keptb in Hp. apply filter_In in Hp.
    destruct Hp. now apply D.
  - rewrite <- excludedb_iff. rewrite keptb_excludedb in K.
    destruct (excludedb (DiffResultFile.file f)); [discriminate | congruence].
Qed.

(** Whenever the tool fulfils, the reads behind it succeeded. *)
Lemma list_changes_inv (w : World.t) (rootDir : string)
    (ds : list FileDiff.t) :
  outcome (getFileChangesInDirectory w rootDir) = Return ds ->
  exists git summary,
    World.simpleGit w rootDir = Return git /\
    SimpleGit.diffSummary git = Return summary /\
    map FileDiff.file ds = retained (DiffResult.files summary) /\
    Forall (fun d => SimpleGit.diff git ["--"; FileDiff.file d]
                     = Return (FileDiff.diff d)) ds.
Proof.
  unfold outcome, run, getFileChangesInDirectory.
  unfold bind at 1, await at 1.
  destruct (World.simpleGit w rootDir) as [git|e] eqn:O; [|discriminate].
  unfold bind at 1, await at 1.
  destruct (SimpleGit.diffSummary git) as [summary|e] eqn:S; [|discriminate].
  cbn [app]. intros H.
  destruct (collectDiffs git (DiffResult.files summary) []
              [GitOpen rootDir; GitDiffSummary]) as [o log'] eqn:C.
  cbn [fst] in H. subst o.
  destruct (collectDiffs_sound git _ _ _ _ _ C) as [ents [-> [Hm Hf]]].
  exists git, summary. repeat split; assumption.
Qed.

(** X3. The tool never fulfils with a partial list: whenever it returns,
  the working copy was opened and summarised, the returned paths are all
  the summary's paths other than "dist" and "bun.lock", in order, and each
  entry carries the diff that git returned for its own path. *)
Theorem list_changes_no_partial_result (w : World.t) (rootDir : string)
    (ds : list FileDiff.t) :
  outcome (getFileChangesInDirectory w rootDir) = Return ds ->
  exists git summary,
    World.simpleGit w rootDir = Return git /\
    SimpleGit.diffSummary git = Return summary /\
    map FileDiff.file ds = filter keptb (paths summary) /\
    (forall d, In d ds ->
               SimpleGit.diff git ["--"; FileDiff.file d]
               = Return (FileDiff.diff d)) /\
    List.length ds <= List.length (DiffResult.files summary).
Proof.
  intros H. destruct (list_changes_inv w rootDir ds H)
    as [git [summary [O [S [Hm Hf]]]]].
  exists git, summary. repeat split; try assumption.
  - now apply Forall_forall.
  - rewrite <- (length_map FileDiff.file), Hm, retained_keptb.
    rewrite <- (length_map DiffResultFile.file (DiffResult.files summary)).
    apply filter_length_le.
Qed.

(** X4. The tool only reads: every call it makes, whether it ends by
  fulfilling or by rejecting, is the opening of the working copy, the
  summary, or the diff of one path of that summary which is neither "dist"
  nor "bun.lock".  It never asks for the diff of an excluded file, never
  for the full diff, and never touches the file system. *)
Theorem list_changes_only_reads (w : World.t) (rootDir : string) (ev : Event) :
  In ev (trace (getFileChangesInDirectory w rootDir)) ->
  ev = GitOpen rootDir \/
  ev = GitDiffSummary \/
  exists git summary p,
    World.simpleGit w rootDir = Return git /\
    SimpleGit.diffSummary git = Return summary /\
    In p (paths summary) /\ p <> "dist" /\ p <> "bun.lock" /\
    ev = GitDiff ["--"; p].
Proof.
  unfold trace, run, getFileChangesInDirectory.
  unfold bind at 1, await at 1.
  destruct (World.simpleGit w rootDir) as [git|e] eqn:O.
  2:{ cbn. intros [<- | []]. now left. }
  unfold bind at 1, await at 1.
  destruct (SimpleGit.diffSummary git) as [summary|e] eqn:S.
  2:{ cbn. intros [<- | [<- | []]]; auto. }
  destruct (collectDiffs_log git (DiffResult.files summary) []
              ([] ++ [GitOpen rootDir] ++ [GitDiffSummary])%list)
    as [evs [Hs Hf]].
  cbn [app] in Hs |- *. rewrite Hs. cbn [In].
  intros [<- | [<- | Hin]]; auto.
  right. right. rewrite Forall_forall in Hf.
  destruct (Hf ev Hin) as [p [-> Hp]]. apply retained_iff in Hp.
  destruct Hp as [Hp Hx]. exists git, summary, p.
  unfold Excluded in Hx. repeat split; try assumption; tauto.
Qed.

End ListChangesMore.

(* ================================================================== *)
(** ** Further properties of generateCommitMessage *)
(* ================================================================== *)

Section GenerateMore.
Import Order.

(** Whenever the tool fulfils, this is how. *)
Lemma generate_inv (w : World.t) (rootDir : string)
    (type : option CommitType) (out : CommitOutput) :
  outcome (generateCommitMessage w rootDir type) = Return out ->
  exists git summary,
    World.simpleGit w rootDir = Return git /\
    SimpleGit.diffSummary git = Return summary /\
    ((DiffResult.files summary = [] /\
      out = Text "No changes detected in the repository")
     \/ (DiffResult.files summary <> [] /\
         (exists diffText, SimpleGit.diff git [] = Return diffText) /\
         out = Object (compose summary (detectType type summary)))).
Proof.
  unfold outcome, run, generateCommitMessage.
  unfold bind at 1, await at 1.
  destruct (World.simpleGit w rootDir) as [git|e] eqn:O; [|discriminate].
  unfold bind at 1, await at 1.
  destruct (SimpleGit.diffSummary git) as [summary|e] eqn:S; [|discriminate].
  intros H. exists git, summary. split; [reflexivity|]. split; [exact S|].
  destruct (DiffResult.files summary) as [|f fs] eqn:E.
  - left. cbn in H. injection H as <-. now split.
  - right. cbn [List.length Nat.eqb] in H. unfold bind, await in H.
    destruct (SimpleGit.diff git []) as [d|e] eqn:D; [|discriminate].
    cbn in H. injection H as <-.
    split; [discriminate|]. split; [now exists d | reflexivity].
Qed.

(** The calls of a run, case by case. *)
Lemma generate_trace (w : World.t) (rootDir : string)
    (type : option CommitType) :
  trace (generateCommitMessage w rootDir type) = [GitOpen rootDir]
  \/ trace (generateCommitMessage w rootDir type)
     = [GitOpen rootDir; GitDiffSummary]
  \/ (trace (generateCommitMessage w rootDir type)
      = [GitOpen rootDir; GitDiffSummary; GitDiff []]
      /\ exists git summary,
           World.simpleGit w rootDir = Return git /\
           SimpleGit.diffSummary git = Return summary /\
           DiffResult.files summary <> []).
Proof.
  remember (trace (generateCommitMessage w rootDir type)) as tr eqn:T.
  unfold trace, run, generateCommitMessage in T.
  unfold bind at 1, await at 1 in T.
  destruct (World.simpleGit w rootDir) as [git|e] eqn:O; [|now left].
  unfold bind at 1, await at 1 in T.
  destruct (SimpleGit.diffSummary git) as [summary|e] eqn:S;
    [|right; now left].
  destruct (DiffResult.files summary) as [|f fs] eqn:E.
  - right. now left.
  - right. right. cbn [List.length Nat.eqb] in T. unfold bind, await in T.
    split.
    + destruct (SimpleGit.diff git []); exact T.
    + exists git, summary. rewrite E. repeat split; [assumption | discriminate].
Qed.

(** X5. The string is returned only when nothing changed, and an object
  only when something did: an object never reports zero files, and the
  number of files it reports is the number of paths it lists, which are
  the paths of the summary. *)
Theorem generate_result_shapes (w : World.t) (rootDir : string)
    (type : option CommitType) (out : CommitOutput) :
  outcome (generateCommitMessage w rootDir type) = Return out ->
  exists git summary,
    World.simpleGit w rootDir = Return git /\
    SimpleGit.diffSummary git = Return summary /\
    match out with
    | Text s =>
        s = "No changes detected in the repository" /\
        DiffResult.files summary = []
    | Object r =>
        DiffResult.files summary <> [] /\
        1 <= Stats.filesChanged (CommitMessage.stats r) /\
        List.length (CommitMessage.affectedFiles r)
        = Stats.filesChanged (CommitMessage.stats r) /\
        CommitMessage.affectedFiles r = paths summary
    end.
Proof.
  intros H. destruct (generate_inv w rootDir type out H)
    as [git [summary [O [S [[E ->] | [NE [_ ->]]]]]]];
    exists git, summary; (split; [exact O|]); (split; [exact S|]).
  - now split.
  - cbn [compose CommitMessage.stats CommitMessage.affectedFiles
           Stats.filesChanged].
    split; [exact NE|]. split; [|split; [apply length_map | reflexivity]].
    destruct (DiffResult.files summary); [contradiction | cbn; lia].
Qed.

(** X6. The tool only reads, and little: every call it makes is the
  opening of the working copy, the summary, or the one full diff, which is
  asked only when the summary holds a file.  It asks for no diff of a
  single path and never touches the file system. *)
Theorem generate_only_reads (w : World.t) (rootDir : string)
    (type : option CommitType) (ev : Event) :
  In ev (trace (generateCommitMessage w rootDir type)) ->
  ev = GitOpen rootDir \/
  ev = GitDiffSummary \/
  (ev = GitDiff [] /\
   exists git summary,
     World.simpleGit w rootDir = Return git /\
     SimpleGit.diffSummary git = Return summary /\
     DiffResult.files summary <> []).
Proof.
  destruct (generate_trace w rootDir type) as [-> | [-> | [-> X]]]; cbn [In].
  - intros [<- | []]. now left.
  - intros [<- | [<- | []]]; auto.
  - intros [<- | [<- | [<- | []]]]; auto.
Qed.

(** X7. The two tools agree on one working copy: the files that
  [getFileChangesInDirectory] lists are the affected files of
  [generateCommitMessage] without "dist" and "bun.lock", in the same
  order; and when the latter reports no changes, the former lists
  nothing. *)
Theorem listed_files_are_kept_affected_files (w : World.t) (rootDir : string)
    (type : option CommitType) (ds : list FileDiff.t) (out : CommitOutput) :
  outcome (getFileChangesInDirectory w rootDir) = Return ds ->
  outcome (generateCommitMessage w rootDir type) = Return out ->
  match out with
  | Text _ => ds = []
  | Object r =>
      map FileDiff.file ds = filter keptb (CommitMessage.affectedFiles r)
  end.
Proof.
  intros L G.
  destruct (list_changes_inv w rootDir ds L) as [git [summary [O [S [Hm _]]]]].
  destruct (generate_inv w rootDir type out G)
    as [git' [summary' [O' [S' C]]]].
  rewrite O in O'. injection O' as <-. rewrite S in S'. injection S' as <-.
  destruct C as [[E ->] | [_ [_ ->]]].
  - rewrite E in Hm. cbn in Hm. now destruct ds.
  - exact Hm.
Qed.

Lemma autoDetect_five (summary : DiffResult.t) :
  In (autoDetect summary) [Test; Docs; Chore; Feat; Fix].
Proof.
  unfold autoDetect.
  repeat match goal with
         | |- context [if ?b then _ else _] => destruct b
         end; cbn; auto 6.
Qed.

(** X8. Left to itself the tool never calls a change style, refactor or
  perf: without an explicit type the type of a returned object is one of
  test, docs, chore, feat and fix, so its description is never "improve
  code structure" or "make changes". *)
Theorem autodetect_never_style_refactor_perf (w : World.t) (rootDir : string)
    (r : CommitMessage.t) :
  outcome (generateCommitMessage w rootDir None) = Return (Object r) ->
  In (Stats.type (CommitMessage.stats r)) [Test; Docs; Chore; Feat; Fix] /\
  descriptionOf (type_name (Stats.type (CommitMessage.stats r)))
  <> "improve code structure" /\
  descriptionOf (type_name (Stats.type (CommitMessage.stats r)))
  <> "make changes".
Proof.
  intros H. destruct (generate_inv w rootDir None _ H)
    as [git [summary [_ [_ [[_ X] | [_ [_ X]]]]]]]; [discriminate|].
  injection X as ->. cbn [compose CommitMessage.stats Stats.type detectType].
  pose proof (autoDetect_five summary) as F. split; [exact F|].
  cbn [In] in F.
  destruct F as [<- | [<- | [<- | [<- | [<- | []]]]]]; split; discriminate.
Qed.

End GenerateMore.

(* ================================================================== *)
(** ** What the message depends on *)
(* ================================================================== *)

Section MessageMore.
Import Order.

Lemma existsb_permutation {A} (p : A -> bool) (l l' : list A) :
  Permutation l l' -> existsb p l = existsb p l'.
Proof.
  induction 1 as [|x l l' _ IH|x y l|l l' l'' _ IH1 _ IH2]; cbn.
  - reflexivity.
  - now rewrite IH.
  - now rewrite !orb_assoc, (orb_comm (p y)).
  - now rewrite IH1.
Qed.

Lemma existsb_incl {A} (p : A -> bool) (l l' : list A) :
  incl l l' -> existsb p l = true -> existsb p l' = true.
Proof.
  intros I H. apply existsb_exists in H. destruct H as [x [Hx Hp]].
  apply existsb_exists. exists x. split; [now apply I | assumption].
Qed.

(** The scope text is read off the list of paths. *)
Lemma scopeTextOf_paths (summary : DiffResult.t) :
  scopeTextOf summary
  = match paths summary with
    | [p] =>
        match nth_error (Js.split p "/") 0 with
        | Some scope =>
            if Js.truthy scope && negb (String.eqb scope p)
            then "(" ++ scope ++ ")"
            else ""
        | None => ""
        end
    | _ => ""
    end.
Proof.
  unfold scopeTextOf, scopeOf, paths.
  destruct (DiffResult.files summary) as [|f [|g fs]]; reflexivity.
Qed.

Lemma permutation_singleton_paths (l l' : list string) :
  Permutation l l' ->
  match l with [p] => l' = [p] | _ => match l' with [_] => False | _ => True end end.
Proof.
  intros P. pose proof (Permutation_length P) as L.
  destruct l as [|p [|q l]].
  - destruct l' as [|? [|? ?]]; cbn in L; try lia; exact I.
  - now apply Permutation_length_1_inv.
  - destruct l' as [|? [|? ?]]; cbn in L; try lia; exact I.
Qed.

Lemma scopeTextOf_permutation (s1 s2 : DiffResult.t) :
  Permutation (paths s1) (paths s2) -> scopeTextOf s1 = scopeTextOf s2.
Proof.
  intros P. rewrite !scopeTextOf_paths.
  pose proof (permutation_singleton_paths _ _ P) as X.
  destruct (paths s1) as [|p [|q l]].
  - destruct (paths s2) as [|? [|? ?]]; [reflexivity | contradiction | reflexivity].
  - now rewrite X.
  - destruct (paths s2) as [|? [|? ?]]; [reflexivity | contradiction | reflexivity].
Qed.

Lemma autoDetect_permutation (s1 s2 : DiffResult.t) :
  Permutation (paths s1) (paths s2) ->
  DiffResult.insertions s1 = DiffResult.insertions s2 ->
  DiffResult.deletions s1 = DiffResult.deletions s2 ->
  autoDetect s1 = autoDetect s2.
Proof.
  intros P I D. unfold autoDetect, Js.some. fold (paths s1). fold (paths s2).
  now rewrite !(existsb_permutation _ _ _ P), I, D.
Qed.

(** X9. The message and the statistics depend on the set of changed
  paths and on the two totals only: two summaries that list the same paths
  in different orders, with whatever per-file counts, and have equal totals
  give the same commit message and the same statistics; only the order of
  the affected files follows the order of the summary. *)
Theorem message_ignores_order_and_file_counts
    (w1 w2 : World.t) (rootDir1 rootDir2 : string) (git1 git2 : SimpleGit.t)
    (s1 s2 : DiffResult.t) (d1 d2 : string) (type : option CommitType) :
  World.simpleGit w1 rootDir1 = Return git1 ->
  World.simpleGit w2 rootDir2 = Return git2 ->
  SimpleGit.diffSummary git1 = Return s1 ->
  SimpleGit.diffSummary git2 = Return s2 ->
  SimpleGit.diff git1 [] = Return d1 ->
  SimpleGit.diff git2 [] = Return d2 ->
  DiffResult.files s1 <> [] ->
  Permutation (paths s1) (paths s2) ->
  DiffResult.insertions s1 = DiffResult.insertions s2 ->
  DiffResult.deletions s1 = DiffResult.deletions s2 ->
  exists r1 r2,
    outcome (generateCommitMessage w1 rootDir1 type) = Return (Object r1) /\
    outcome (generateCommitMessage w2 rootDir2 type) = Return (Object r2) /\
    CommitMessage.commitMessage r1 = CommitMessage.commitMessage r2 /\
    CommitMessage.stats r1 = CommitMessage.stats r2 /\
    Permutation (CommitMessage.affectedFiles r1)
      (CommitMessage.affectedFiles r2).
Proof.
  intros O1 O2 S1 S2 D1 D2 NE P I D.
  assert (List.length (DiffResult.files s1) = List.length (DiffResult.files s2))
    as L.
  { apply Permutation_length in P. unfold paths in P.
    now rewrite !length_map in P. }
  assert (DiffResult.files s2 <> []) as NE2.
  { destruct (DiffResult.files s1); [contradiction|].
    destruct (DiffResult.files s2); [discriminate L | discriminate]. }
  assert (detectType type s1 = detectType type s2) as T.
  { unfold detectType. destruct type as [t|].
    - now rewrite type_name_truthy.
    - now apply autoDetect_permutation. }
  exists (compose s1 (detectType type s1)), (compose s2 (detectType type s2)).
  unfold outcome.
  rewrite (run_generate_nonempty w1 rootDir1 git1 s1 O1 S1 type d1 NE D1).
  rewrite (run_generate_nonempty w2 rootDir2 git2 s2 O2 S2 type d2 NE2 D2).
  split; [reflexivity|]. split; [reflexivity|].
  unfold compose.
  cbn [CommitMessage.commitMessage CommitMessage.stats
         CommitMessage.affectedFiles].
  rewrite T, L, I, D, (scopeTextOf_permutation s1 s2 P).
  repeat split. exact P.
Qed.

Lemma autoDetect_priority_incl (s1 s2 : DiffResult.t) :
  incl (paths s1) (paths s2) ->
  priority (autoDetect s2) <= priority (autoDetect s1).
Proof.
  intros I. unfold autoDetect, Js.some. fold (paths s1). fold (paths s2).
  pose proof (existsb_incl
                (fun f => Js.includes f "test" || Js.includes f "spec")
                _ _ I) as HT.
  pose proof (existsb_incl
                (fun f => Js.includes f "README" || Js.endsWith f ".md")
                _ _ I) as HD.
  pose proof (existsb_incl (fun f => Js.includes f "package.json") _ _ I)
    as HC.
  destruct (existsb (fun f => Js.includes f "test" || Js.includes f "spec")
              (paths s1)),
           (existsb (fun f => Js.includes f "test" || Js.includes f "spec")
              (paths s2));
    try (specialize (HT eq_refl); discriminate);
  destruct (existsb (fun f => Js.includes f "README" || Js.endsWith f ".md")
              (paths s1)),
           (existsb (fun f => Js.includes f "README" || Js.endsWith f ".md")
              (paths s2));
    try (specialize (HD eq_refl); discriminate);
  destruct (existsb (fun f => Js.includes f "package.json") (paths s1)),
           (existsb (fun f => Js.includes f "package.json") (paths s2));
    try (specialize (HC eq_refl); discriminate);
  destruct (DiffResult.deletions s1 <? DiffResult.insertions s1)%N,
           (DiffResult.deletions s2 <? DiffResult.insertions s2)%N;
    cbn; lia.
Qed.

(** X10. More changed files never push the detected type down the order
  of the rules (test, then docs, then chore, then feat or fix): if every
  path of one summary is also a path of a second one, then, whatever the
  totals are, the type detected for the second stands at least as high as
  the type detected for the first.  A change set that counts as test stays
  test when files are added. *)
Theorem more_files_never_lower_priority
    (w1 w2 : World.t) (rootDir1 rootDir2 : string) (git1 git2 : SimpleGit.t)
    (s1 s2 : DiffResult.t) (d1 d2 : string) :
  World.simpleGit w1 rootDir1 = Return git1 ->
  World.simpleGit w2 rootDir2 = Return git2 ->
  SimpleGit.diffSummary git1 = Return s1 ->
  SimpleGit.diffSummary git2 = Return s2 ->
  SimpleGit.diff git1 [] = Return d1 ->
  SimpleGit.diff git2 [] = Return d2 ->
  DiffResult.files s1 <> [] ->
  incl (paths s1) (paths s2) ->
  exists r1 r2,
    outcome (generateCommitMessage w1 rootDir1 None) = Return (Object r1) /\
    outcome (generateCommitMessage w2 rootDir2 None) = Return (Object r2) /\
    priority (Stats.type (CommitMessage.stats r2))
    <= priority (Stats.type (CommitMessage.stats r1)) /\
    (Stats.type (CommitMessage.stats r1) = Test ->
     Stats.type (CommitMessage.stats r2) = Test).
Proof.
  intros O1 O2 S1 S2 D1 D2 NE I.
  assert (DiffResult.files s2 <> []) as NE2.
  { unfold paths in I. destruct (DiffResult.files s1) as [|f fs];
      [contradiction|].
    intros E. rewrite E in I. exact (I _ (or_introl eq_refl)). }
  exists (compose s1 (autoDetect s1)), (compose s2 (autoDetect s2)).
  unfold outcome.
  rewrite (run_generate_nonempty w1 rootDir1 git1 s1 O1 S1 None d1 NE D1).
  rewrite (run_generate_nonempty w2 rootDir2 git2 s2 O2 S2 None d2 NE2 D2).
  split; [reflexivity|]. split; [reflexivity|].
  cbn [compose CommitMessage.stats Stats.type].
  pose proof (autoDetect_priority_incl s1 s2 I) as P.
  split; [exact P|]. intros T. rewrite T in P. cbn in P.
  destruct (autoDetect s2); cbn in P; try lia. reflexivity.
Qed.

Lemma scopeText_dichotomy (summary : DiffResult.t) :
  scopeTextOf summary = "" \/
  exists f seg tail,
    DiffResult.files summary = [f] /\
    DiffResultFile.file f = seg ++ "/" ++ tail /\
    seg <> "" /\ ~ Js.Contains seg "/" /\
    scopeTextOf summary = "(" ++ seg ++ ")".
Proof.
  destruct (DiffResult.files summary) as [|f [|g fs]] eqn:E.
  - left. unfold scopeTextOf, scopeOf. now rewrite E.
  - destruct (Js.includes (DiffResultFile.file f) "/") eqn:S.
    + destruct (includes_char_split _ _ S) as [seg [tail [P NS]]].
      destruct seg as [|c seg].
      * left. apply (scopeText_leading_separator summary f tail E P).
      * right. exists f, (String c seg), tail.
        apply includes_false_iff in NS.
        assert (String c seg <> "") as NE by discriminate.
        repeat split; try assumption.
        apply (scopeText_segment summary f (String c seg) tail E P NS NE).
    + left. apply includes_false_iff in S.
      now destruct (scopeText_no_separator summary f E S).
  - left. apply scopeText_many. rewrite E. cbn. lia.
Qed.

(** X11. A scope appears in one case only.  Either the type is followed
  by the colon at once, or exactly one file changed, its path is a
  non-empty first segment without separator, a separator and a rest, and
  the type is followed by that segment in parentheses. *)
Theorem scope_only_for_single_nested_file (w : World.t) (rootDir : string)
    (git : SimpleGit.t) (summary : DiffResult.t) (diffText : string)
    (type : option CommitType) :
  World.simpleGit w rootDir = Return git ->
  SimpleGit.diffSummary git = Return summary ->
  DiffResult.files summary <> [] ->
  SimpleGit.diff git [] = Return diffText ->
  exists r,
    outcome (generateCommitMessage w rootDir type) = Return (Object r) /\
    let t := Stats.type (CommitMessage.stats r) in
    let rest :=
      ": " ++ descriptionTable t
      ++ bodyLine (List.length (DiffResult.files summary))
           (DiffResult.insertions summary) (DiffResult.deletions summary) in
    CommitMessage.commitMessage r = type_name t ++ rest
    \/ exists f seg tail,
         DiffResult.files summary = [f] /\
         DiffResultFile.file f = seg ++ "/" ++ tail /\
         seg <> "" /\ ~ Js.Contains seg "/" /\
         CommitMessage.commitMessage r
         = type_name t ++ "(" ++ seg ++ ")" ++ rest.
Proof.
  intros O S NE D. eexists. split.
  - unfold outcome.
    rewrite (run_generate_nonempty w rootDir git summary O S type diffText
               NE D).
    reflexivity.
  - cbv zeta. cbn [compose CommitMessage.stats Stats.type].
    rewrite compose_message.
    destruct (scopeText_dichotomy summary) as [-> | [f [seg [tail [E [P [N [NS ->]]]]]]]].
    + now left.
    + right. exists f, seg, tail. repeat split; try assumption.
      now rewrite !append_assoc.
Qed.

End MessageMore.

(* ================================================================== *)
(** ** The input schema and the message *)
(* ================================================================== *)

Section SchemaMore.
Import Inputs.

Lemma min1_iff (s : string) : min1 s = true <-> s <> "".
Proof. destruct s; cbn; split; congruence. Qed.

Lemma parseCommitType_name (t : CommitType) :
  parseCommitType (type_name t) = Some t.
Proof. destruct t; reflexivity. Qed.

Lemma parseCommitType_some (s : string) (t : CommitType) :
  parseCommitType s = Some t -> type_name t = s.
Proof.
  unfold parseCommitType.
  repeat match goal with
         | |- context [if String.eqb s ?lit then _ else _] =>
             destruct (String.eqb_spec s lit) as [-> | _];
             [intros H; injection H as <-; reflexivity|]
         end.
  discriminate.
Qed.

Lemma parseCommitType_none (s : string) :
  parseCommitType s = None -> forall t, type_name t <> s.
Proof.
  intros N t E. rewrite <- E, parseCommitType_name in N. discriminate.
Qed.

(** X12. The schema accepts the arguments exactly when the root
  directory is non-empty and the type is left out or spelled as one of the
  eight names.  Parsing loses nothing: the root directory is kept and the
  parsed type is written as the very string that was given. *)
Theorem commit_schema_round_trip (a : CommitMessageArgs.t) :
  match commitMessageSchema a with
  | Some parsed =>
      CommitMessageArgs.rootDir a <> "" /\
      CommitMessageInput.rootDir parsed = CommitMessageArgs.rootDir a /\
      option_map type_name (CommitMessageInput.type parsed)
      = CommitMessageArgs.type a
  | None =>
      CommitMessageArgs.rootDir a = "" \/
      exists s, CommitMessageArgs.type a = Some s /\
                forall t, type_name t <> s
  end.
Proof.
  unfold commitMessageSchema.
  destruct (min1 (CommitMessageArgs.rootDir a)) eqn:M.
  - apply min1_iff in M.
    destruct (CommitMessageArgs.type a) as [s|].
    + destruct (parseCommitType s) as [t|] eqn:P.
      * cbn. apply parseCommitType_some in P. now rewrite P.
      * right. exists s. split; [reflexivity|]. now apply parseCommitType_none.
    + now cbn.
  - left. destruct (CommitMessageArgs.rootDir a); [reflexivity | discriminate].
Qed.

(** X13. From the caller's string to the message: when the schema
  accepts arguments that name a type, and something changed, the message
  starts with the string the caller wrote, followed by the scope or the
  colon, and the type of the statistics is written as that string. *)
Theorem given_type_string_heads_message (w : World.t) (a : CommitMessageArgs.t)
    (parsed : CommitMessageInput.t) (s : string)
    (git : SimpleGit.t) (summary : DiffResult.t) (diffText : string) :
  commitMessageSchema a = Some parsed ->
  CommitMessageArgs.type a = Some s ->
  World.simpleGit w (CommitMessageArgs.rootDir a) = Return git ->
  SimpleGit.diffSummary git = Return summary ->
  DiffResult.files summary <> [] ->
  SimpleGit.diff git [] = Return diffText ->
  exists r,
    outcome (generateCommitMessage w (CommitMessageInput.rootDir parsed)
               (CommitMessageInput.type parsed))
    = Return (Object r) /\
    type_name (Stats.type (CommitMessage.stats r)) = s /\
    exists rest,
      CommitMessage.commitMessage r = s ++ rest /\
      (Js.startsWith rest "(" = true \/ Js.startsWith rest ": " = true).
Proof.
  intros P T O S NE D.
  unfold commitMessageSchema in P.
  destruct (min1 (CommitMessageArgs.rootDir a)); [|discriminate].
  rewrite T in P. destruct (parseCommitType s) as [t|] eqn:PT; [|discriminate].
  injection P as <-. cbn [CommitMessageInput.rootDir CommitMessageInput.type].
  apply parseCommitType_some in PT. subst s.
  exists (compose summary t). split.
  - unfold outcome.
    rewrite (run_generate_nonempty w _ git summary O S (Some t) diffText NE D).
    now rewrite detectType_explicit.
  - split; [reflexivity|]. rewrite compose_message. eexists.
    split; [reflexivity|].
    destruct (scopeText_shape summary) as [-> | [scope ->]];
      [right | left]; reflexivity.
Qed.

End SchemaMore.

(* ================================================================== *)
(** ** Further properties of writeReviewToMarkdown *)
(* ================================================================== *)

Section WriteMore.

Lemma contains_append_l (a b x : string) :
  Js.Contains b x -> Js.Contains (a ++ b) x.
Proof.
  intros [pre [post ->]]. exists (a ++ pre), post. now rewrite append_assoc.
Qed.

Lemma contains_append_r (a b x : string) :
  Js.Contains a x -> Js.Contains (a ++ b) x.
Proof.
  intros [pre [post ->]]. exists pre, (post ++ b).
  now rewrite !append_assoc.
Qed.

Lemma contains_self (x : string) : Js.Contains x x.
Proof. exists "", "". cbn. now rewrite append_nil_r. Qed.

(** The calls of a run, case by case. *)
Lemma write_trace (w : World.t) (i : WriteMarkdownInput.t) :
  let filePath := WriteMarkdownInput.filePath i in
  let dir := World.dirname w filePath in
  let doc := markdownContentOf (World.now w) i in
  (exists e, World.mkdir w dir = Throw e /\
             trace (writeReviewToMarkdown w i) = [FsMkdir dir true])
  \/ (World.mkdir w dir = Return tt /\
      trace (writeReviewToMarkdown w i)
      = [FsMkdir dir true; FsWriteFile filePath doc]).
Proof.
  intros filePath dir doc. unfold trace.
  destruct (World.mkdir w dir) as [[]|e] eqn:Hm.
  - right. split; [reflexivity|].
    destruct (World.writeFile w filePath doc) as [[]|e] eqn:Hw.
    + now rewrite (run_write_ok w i Hm Hw).
    + now rewrite (run_write_writeFile_throws w i e Hm Hw).
  - left. exists e. split; [reflexivity|].
    now rewrite (run_write_mkdir_throws w i e Hm).
Qed.

Lemma markdownContent_has_heading (now : Z) (i : WriteMarkdownInput.t) :
  Js.Contains (markdownContentOf now i) "##".
Proof.
  rewrite markdownContent_layout.
  do 8 apply contains_append_l.
  destruct (Js.includes (WriteMarkdownInput.reviewContent i) "##") eqn:E.
  - apply contains_append_r. now apply includes_iff.
  - apply contains_append_l. unfold summarySection.
    do 2 apply contains_append_l. apply contains_append_r.
    exists "", " Summary". reflexivity.
Qed.

(** X14. The tool makes the directory of the path, with parents, and
  only then writes, once and to the given path: if the directory step
  throws, nothing is written; otherwise the one write goes to [filePath]
  with the whole document.  No other call is made, whether the write
  succeeds or not. *)
Theorem write_call_discipline (w : World.t) (i : WriteMarkdownInput.t) :
  let filePath := WriteMarkdownInput.filePath i in
  let dir := World.dirname w filePath in
  let doc := markdownContentOf (World.now w) i in
  (exists e, World.mkdir w dir = Throw e /\
             trace (writeReviewToMarkdown w i) = [FsMkdir dir true])
  \/ (World.mkdir w dir = Return tt /\
      trace (writeReviewToMarkdown w i)
      = [FsMkdir dir true; FsWriteFile filePath doc]).
Proof.
  intros filePath dir doc. unfold trace.
  destruct (World.mkdir w dir) as [[]|e] eqn:Hm.
  - right. split; [reflexivity|].
    destruct (World.writeFile w filePath doc) as [[]|e] eqn:Hw.
    + now rewrite (run_write_ok w i Hm Hw).
    + now rewrite (run_write_writeFile_throws w i e Hm Hw).
  - left. exists e. split; [reflexivity|].
    now rewrite (run_write_mkdir_throws w i e Hm).
Qed.


(** X16. Wrapping twice adds one summary at most.  When the content of a
  review is a document that the tool wrote before, the new document is a
  heading, the optional time line and the rule, followed by the earlier
  document and nothing else: no second summary section is appended. *)
Theorem rewrapping_appends_no_second_summary
    (w w' : World.t) (i i' : WriteMarkdownInput.t) (p c p' c' : string) :
  In (FsWriteFile p c) (trace (writeReviewToMarkdown w i)) ->
  WriteMarkdownInput.reviewContent i' = c ->
  In (FsWriteFile p' c') (trace (writeReviewToMarkdown w' i')) ->
  exists title stamp,
    c' = "# " ++ title ++ Js.nl ++ Js.nl ++ stamp
         ++ "---" ++ Js.nl ++ Js.nl ++ c.
Proof.
  intros W E W'.
  assert (c = markdownContentOf (World.now w) i) as Hc.
  { destruct (write_trace w i) as [[e [_ T]] | [_ T]]; rewrite T in W;
      cbn [In] in W.
    - destruct W as [H | []]. discriminate.
    - destruct W as [H | [H | []]]; [discriminate|]. now injection H. }
  assert (c' = markdownContentOf (World.now w') i') as Hc'.
  { destruct (write_trace w' i') as [[e [_ T]] | [_ T]]; rewrite T in W';
      cbn [In] in W'.
    - destruct W' as [H | []]. discriminate.
    - destruct W' as [H | [H | []]]; [discriminate|]. now injection H. }
  rewrite Hc', markdownContent_layout, E.
  assert (Js.includes c "##" = true) as ->.
  { apply includes_iff. rewrite Hc. apply markdownContent_has_heading. }
  eexists _, _. rewrite append_nil_r. reflexivity.
Qed.

End WriteMore.

(* ================================================================== *)
(** ** Concrete runs of the further properties *)
(* ================================================================== *)

Import Order Inputs.

Lemma list_changes_all_excluded_witness :
  run (getFileChangesInDirectory
         (Sample.world Cases.onlyExcluded Sample.diffBody) "repo")
  = (Return [], [GitOpen "repo"; GitDiffSummary]).
Proof.
  refine (list_changes_all_excluded
            (Sample.world Cases.onlyExcluded Sample.diffBody) "repo"
            (Sample.git Cases.onlyExcluded Sample.diffBody)
            (Sample.summaryOf Cases.onlyExcluded) eq_refl eq_refl _).
  intros p [<- | [<- | []]]; [left | right]; reflexivity.
Defined.

Lemma list_changes_stops_at_first_failure_witness :
  run (getFileChangesInDirectory Cases.flaky "repo")
  = (Throw (ErrorObject "fatal: unable to read b.ts"),
     [GitOpen "repo"; GitDiffSummary; GitDiff ["--"; "a.ts"];
      GitDiff ["--"; "b.ts"]]).
Proof.
  refine (list_changes_stops_at_first_failure Cases.flaky "repo"
            Cases.flakyGit (Sample.summaryOf Cases.threeSources)
            (fun p => Sample.diffBody ["--"; p])
            [Sample.changed "a.ts" 1 0; Sample.changed "dist" 7 7]
            (Sample.changed "b.ts" 2 2) [Sample.changed "c.ts" 0 3]
            (ErrorObject "fatal: unable to read b.ts")
            eq_refl eq_refl eq_refl _ eq_refl eq_refl).
  intros p [<- | [<- | []]] K; [reflexivity | discriminate K].
Defined.

Lemma list_changes_no_partial_result_witness :
  exists git summary,
    World.simpleGit (Sample.world Sample.mixed Sample.diffBody) "repo"
    = Return git /\
    SimpleGit.diffSummary git = Return summary /\
    map FileDiff.file Cases.mixedEntries = filter keptb (paths summary) /\
    (forall d, In d Cases.mixedEntries ->
               SimpleGit.diff git ["--"; FileDiff.file d]
               = Return (FileDiff.diff d)) /\
    List.length Cases.mixedEntries <= List.length (DiffResult.files summary).
Proof.
  exact (list_changes_no_partial_result
           (Sample.world Sample.mixed Sample.diffBody) "repo"
           Cases.mixedEntries eq_refl).
Defined.

Lemma list_changes_only_reads_witness :
  GitDiff ["--"; "dist/app.js"] = GitOpen "repo" \/
  GitDiff ["--"; "dist/app.js"] = GitDiffSummary \/
  exists git summary p,
    World.simpleGit (Sample.world Sample.mixed Sample.diffBody) "repo"
    = Return git /\
    SimpleGit.diffSummary git = Return summary /\
    In p (paths summary) /\ p <> "dist" /\ p <> "bun.lock" /\
    GitDiff ["--"; "dist/app.js"] = GitDiff ["--"; p].
Proof.
  apply (list_changes_only_reads
           (Sample.world Sample.mixed Sample.diffBody) "repo"
           (GitDiff ["--"; "dist/app.js"])).
  right. right. right. left. reflexivity.
Defined.

Lemma generate_result_shapes_witness :
  exists git summary,
    World.simpleGit (Sample.world [] Sample.diffBody) "repo" = Return git /\
    SimpleGit.diffSummary git = Return summary /\
    "No changes detected in the repository"
    = "No changes detected in the repository" /\
    DiffResult.files summary = [].
Proof.
  exact (generate_result_shapes (Sample.world [] Sample.diffBody) "repo"
           (Some Perf) (Text "No changes detected in the repository")
           eq_refl).
Defined.

Lemma generate_only_reads_witness :
  GitDiff [] = GitOpen "repo" \/
  GitDiff [] = GitDiffSummary \/
  (GitDiff [] = GitDiff [] /\
   exists git summary,
     World.simpleGit (Sample.world Sample.oneSource Sample.diffBody) "repo"
     = Return git /\
     SimpleGit.diffSummary git = Return summary /\
     DiffResult.files summary <> []).
Proof.
  apply (generate_only_reads
           (Sample.world Sample.oneSource Sample.diffBody) "repo" None
           (GitDiff [])).
  right. right. left. reflexivity.
Defined.

Lemma listed_files_are_kept_affected_files_witness :
  map FileDiff.file Cases.mixedEntries
  = filter keptb ["src/a.ts"; "dist"; "dist/app.js"; "bun.lock"].
Proof.
  exact (listed_files_are_kept_affected_files
           (Sample.world Sample.mixed Sample.diffBody) "repo" None
           Cases.mixedEntries
           (Object (compose (Sample.summaryOf Sample.mixed) Feat))
           eq_refl eq_refl).
Defined.

Lemma autodetect_never_style_refactor_perf_witness :
  In Feat [Test; Docs; Chore; Feat; Fix] /\
  descriptionOf "feat" <> "improve code structure" /\
  descriptionOf "feat" <> "make changes".
Proof.
  exact (autodetect_never_style_refactor_perf
           (Sample.world Sample.oneSource Sample.diffBody) "repo"
           (compose (Sample.summaryOf Sample.oneSource) Feat) eq_refl).
Defined.

Lemma mixed_paths_shuffled :
  Permutation (paths (Sample.summaryOf Sample.mixed))
    (paths (Sample.summaryOf Cases.mixedShuffled)).
Proof.
  change (Permutation ("src/a.ts" :: ["dist"; "dist/app.js"; "bun.lock"])
            (["bun.lock"; "dist/app.js"] ++ "src/a.ts" :: ["dist"])).
  apply Permutation_cons_app.
  change (Permutation ("dist" :: ["dist/app.js"; "bun.lock"])
            (["bun.lock"; "dist/app.js"] ++ "dist" :: [])).
  apply Permutation_cons_app. apply perm_swap.
Qed.

Lemma message_ignores_order_and_file_counts_witness :
  exists r1 r2,
    outcome (generateCommitMessage
               (Sample.world Sample.mixed Sample.diffBody) "here" None)
    = Return (Object r1) /\
    outcome (generateCommitMessage
               (Sample.world Cases.mixedShuffled Sample.diffBody) "there" None)
    = Return (Object r2) /\
    CommitMessage.commitMessage r1 = CommitMessage.commitMessage r2 /\
    CommitMessage.stats r1 = CommitMessage.stats r2 /\
    Permutation (CommitMessage.affectedFiles r1)
      (CommitMessage.affectedFiles r2).
Proof.
  exact (message_ignores_order_and_file_counts
           (Sample.world Sample.mixed Sample.diffBody)
           (Sample.world Cases.mixedShuffled Sample.diffBody)
           "here" "there"
           (Sample.git Sample.mixed Sample.diffBody)
           (Sample.git Cases.mixedShuffled Sample.diffBody)
           (Sample.summaryOf Sample.mixed)
           (Sample.summaryOf Cases.mixedShuffled)
           "diff" "diff" None
           eq_refl eq_refl eq_refl eq_refl eq_refl eq_refl
           (summaryOf_nonempty _ _) mixed_paths_shuffled eq_refl eq_refl).
Defined.

Lemma more_files_never_lower_priority_witness :
  exists r1 r2,
    outcome (generateCommitMessage
               (Sample.world Sample.oneSource Sample.diffBody) "repo" None)
    = Return (Object r1) /\
    outcome (generateCommitMessage
               (Sample.world Cases.sourceAndTest Sample.diffBody) "repo" None)
    = Return (Object r2) /\
    priority (Stats.type (CommitMessage.stats r2))
    <= priority (Stats.type (CommitMessage.stats r1)) /\
    (Stats.type (CommitMessage.stats r1) = Test ->
     Stats.type (CommitMessage.stats r2) = Test).
Proof.
  refine (more_files_never_lower_priority
            (Sample.world Sample.oneSource Sample.diffBody)
            (Sample.world Cases.sourceAndTest Sample.diffBody)
            "repo" "repo"
            (Sample.git Sample.oneSource Sample.diffBody)
            (Sample.git Cases.sourceAndTest Sample.diffBody)
            (Sample.summaryOf Sample.oneSource)
            (Sample.summaryOf Cases.sourceAndTest)
            "diff" "diff"
            eq_refl eq_refl eq_refl eq_refl eq_refl eq_refl
            (summaryOf_nonempty _ _) _).
  intros p [<- | []]. left. reflexivity.
Defined.

Lemma scope_only_for_single_nested_file_witness :
  exists r,
    outcome (generateCommitMessage
               (Sample.world Sample.oneSource Sample.diffBody) "repo" None)
    = Return (Object r) /\
    (CommitMessage.commitMessage r
     = type_name (Stats.type (CommitMessage.stats r))
       ++ ": " ++ descriptionTable (Stats.type (CommitMessage.stats r))
       ++ bodyLine 1 12 4
     \/ exists f seg tail,
          [Sample.changed "src/tools.ts" 12 4] = [f] /\
          DiffResultFile.file f = seg ++ "/" ++ tail /\
          seg <> "" /\ ~ Js.Contains seg "/" /\
          CommitMessage.commitMessage r
          = type_name (Stats.type (CommitMessage.stats r))
            ++ "(" ++ seg ++ ")"
            ++ ": " ++ descriptionTable (Stats.type (CommitMessage.stats r))
            ++ bodyLine 1 12 4).
Proof.
  exact (scope_only_for_single_nested_file
           (Sample.world Sample.oneSource Sample.diffBody) "repo"
           (Sample.git Sample.oneSource Sample.diffBody)
           (Sample.summaryOf Sample.oneSource) "diff" None
           eq_refl eq_refl (summaryOf_nonempty _ _) eq_refl).
Defined.

Lemma commit_schema_round_trip_witness :
  "repo" <> "" /\ "repo" = "repo" /\ Some "refactor" = Some "refactor".
Proof. exact (commit_schema_round_trip Cases.refactorArgs). Defined.

Lemma given_type_string_heads_message_witness :
  exists r,
    outcome (generateCommitMessage
               (Sample.world Sample.oneTest Sample.diffBody) "repo"
               (Some Refactor))
    = Return (Object r) /\
    type_name (Stats.type (CommitMessage.stats r)) = "refactor" /\
    exists rest,
      CommitMessage.commitMessage r = "refactor" ++ rest /\
      (Js.startsWith rest "(" = true \/ Js.startsWith rest ": " = true).
Proof.
  exact (given_type_string_heads_message
           (Sample.world Sample.oneTest Sample.diffBody) Cases.refactorArgs
           {| CommitMessageInput.rootDir := "repo";
              CommitMessageInput.type := Some Refactor |}
           "refactor"
           (Sample.git Sample.oneTest Sample.diffBody)
           (Sample.summaryOf Sample.oneTest) "diff"
           eq_refl eq_refl eq_refl eq_refl (summaryOf_nonempty _ _) eq_refl).
Defined.

Lemma write_call_discipline_witness :
  (exists e, World.mkdir Cases.readOnly "reviews" = Throw e /\
             trace (writeReviewToMarkdown Cases.readOnly Sample.review)
             = [FsMkdir "reviews" true])
  \/ (World.mkdir Cases.readOnly "reviews" = Return tt /\
      trace (writeReviewToMarkdown Cases.readOnly Sample.review)
      = [FsMkdir "reviews" true;
         FsWriteFile "reviews/r.md" (markdownContentOf 0 Sample.review)]).
Proof. exact (write_call_discipline Cases.readOnly Sample.review). Defined.


Lemma rewrapping_appends_no_second_summary_witness :
  exists title stamp,
    markdownContentOf 1758326400000 Cases.rewrapped
    = "# " ++ title ++ Js.nl ++ Js.nl ++ stamp
      ++ "---" ++ Js.nl ++ Js.nl
      ++ markdownContentOf 1758326400000 Sample.headed.
Proof.
  apply (rewrapping_appends_no_second_summary
           (Sample.world [] Sample.diffBody) (Sample.world [] Sample.diffBody)
           Sample.headed Cases.rewrapped
           "r.md" (markdownContentOf 1758326400000 Sample.headed)
           "again.md" (markdownContentOf 1758326400000 Cases.rewrapped)).
  - right. left. reflexivity.
  - reflexivity.
  - right. left. reflexivity.
Defined.
